(** * Room handlers of synapse/api/handlers/room.py

    A shallow embedding of the room handlers (message, room creation and
    room membership) together with the properties of the membership
    state machine, the access gate and the membership notifier.

    The handlers are Twisted [inlineCallbacks] generators.  Every store
    method hands back a Deferred; [yield d] waits for [d] and either
    delivers its result or raises its failure inside the generator.  A
    request runs sequentially, so a handler is modelled as a function
    from the world before the request to an outcome and the world after
    it (a state and error monad). *)

From Stdlib Require Import ZArith Lia.
From stdpp Require Import base strings gmap list pretty.

Open Scope string_scope.

(** ** Python values *)

(** JSON-like content of an event ([event.content]). *)
#[warnings="-register-all"]
Inductive json : Type :=
| JNull
| JBool (b : bool)
| JNum (n : Z)
| JStr (s : string)
| JList (l : list json)
| JObj (fields : list (string * json)).

(** A value that is either Python's [None] or a [str]. *)
Abbreviation pystr := (option string).

(** The result rows of a store query: [None] or a list of rows. *)
Inductive pyres (A : Type) : Type :=
| PyNone
| PyList (rows : list A).
Arguments PyNone {A}.
Arguments PyList {A} rows.

(** Exceptions.  A store fault is whatever a failed store Deferred
    carries: the store's own [StoreException] or any other error. *)
Inductive store_fault : Type :=
| StoreException
| OtherFault (descr : string).

Inductive exn : Type :=
| RoomError (code : Z) (msg : string)
| StoreFault (f : store_fault)
| UnboundLocalError (name : string)
| KeyError (key : string)
| TypeError (msg : string).

(** A Deferred that has run to completion. *)
Inductive Deferred (A : Type) : Type :=
| Fired (a : A)
| Failed (f : store_fault).
Arguments Fired {A} a.
Arguments Failed {A} f.

(** Python truth value testing ([if x:], [not x], [x and y]). *)
Class Truthy (A : Type) := truthy : A -> bool.

#[global] Instance truthy_bool : Truthy bool := fun b => b.
#[global] Instance truthy_string : Truthy string :=
  fun s => negb (String.eqb s "").
#[global] Instance truthy_list {A} : Truthy (list A) :=
  fun l => match l with [] => false | _ :: _ => true end.
#[global] Instance truthy_option {A} `{Truthy A} : Truthy (option A) :=
  fun o => match o with None => false | Some a => truthy a end.
#[global] Instance truthy_pyres {A} : Truthy (pyres A) :=
  fun r => match r with PyNone => false | PyList l => truthy l end.
(** A Deferred is a plain object: it defines neither [__bool__] nor
    [__len__], so it is always true. *)
#[global] Instance truthy_Deferred {A} : Truthy (Deferred A) :=
  fun _ => true.

(** [str(x)] as used by the [%s] conversions. *)
Definition py_str (s : pystr) : string :=
  match s with None => "None" | Some s => s end.

(** [a == b] on values that are [None] or a [str]. *)
Definition pystr_eqb (a b : pystr) : bool :=
  match a, b with
  | None, None => true
  | Some x, Some y => String.eqb x y
  | _, _ => false
  end.

(** [x in l] for a list of strings. *)
Definition py_in (x : pystr) (l : list string) : bool :=
  existsb (fun y => pystr_eqb x (Some y)) l.

(** [rows[0]], where the code has checked that [rows] is true. *)
Definition first {A} (r : pyres A) : option A :=
  match r with
  | PyList (x :: _) => Some x
  | _ => None
  end.

(** ** Rows and events *)

(** class Membership *)
Module Membership.
Definition INVITE : string := "invite".
Definition JOIN : string := "join".
Definition KNOCK : string := "knock".
Definition LEAVE : string := "leave".
End Membership.

(** A room row, of which the handlers read [is_public]. *)
Record Room : Type := mkRoom {
  r_room_id : string;
  is_public : bool;
  r_creator : pystr
}.

(** A room member row, of which the handlers read [membership]. *)
Record RoomMember : Type := mkRoomMember {
  m_room_id : string;
  m_user_id : pystr;
  membership : pystr;
  m_content : json
}.

(** A message row. *)
Record Message : Type := mkMessage {
  g_room_id : string;
  g_user_id : string;
  g_msg_id : pystr;
  g_content : string
}.

(** The event handed to a handler by the transport layer. *)
Record Event : Type := mkEvent {
  e_type : string;
  e_room_id : string;
  e_user_id : string;
  e_auth_user_id : pystr;
  e_membership : pystr;
  e_content : json;
  e_msg_id : pystr
}.

(** ** The store interface *)

(** One call of a store method with its arguments: the entries of the
    call log. *)
Inductive StoreCall : Type :=
| CGetRoom (room_id : string)
| CStoreRoom (room_id : pystr) (room_creator_user_id : pystr)
             (is_public : bool)
| CGetRoomMember (room_id : string) (user_id : pystr)
| CStoreRoomMember (user_id : string) (room_id : string) (content : json)
                   (membership : pystr)
| CGetMessage (room_id : string) (msg_id : pystr) (user_id : string)
| CStoreMessage (user_id : string) (room_id : string) (msg_id : pystr)
                (content : string)
| CStorePathData (room_id : string) (path : string) (content : string)
| CGetPathData (path : string).

(** The store is an external collaborator: any implementation over any
    state [S].  Each method returns a Deferred and the next state. *)
Record StoreImpl (S : Type) : Type := mkStore {
  st_get_room : string -> S -> Deferred (pyres Room) * S;
  st_store_room : pystr -> pystr -> bool -> S -> Deferred pystr * S;
  st_get_room_member : string -> pystr -> S -> Deferred (pyres RoomMember) * S;
  st_store_room_member : string -> string -> json -> pystr -> S ->
                         Deferred unit * S;
  st_get_message : string -> pystr -> string -> S ->
                   Deferred (pyres Message) * S;
  st_store_message : string -> string -> pystr -> string -> S ->
                     Deferred unit * S;
  st_store_path_data : string -> string -> string -> S -> Deferred unit * S;
  st_get_path_data : string -> S -> Deferred (pyres string) * S
}.
Arguments st_get_room {S}.
Arguments st_store_room {S}.
Arguments st_get_room_member {S}.
Arguments st_store_room_member {S}.
Arguments st_get_message {S}.
Arguments st_store_message {S}.
Arguments st_store_path_data {S}.
Arguments st_get_path_data {S}.

(** ** The world of a request *)

(** The store state, the log of store calls made so far, the clock
    reading [int(time.time())], and the two list objects held as default
    arguments by [get_room_path_data] (created once, when the function
    is defined, and shared by all calls). *)
Record World (S : Type) : Type := mkWorld {
  w_store : S;
  w_log : list StoreCall;
  w_now : Z;
  w_public_default : list string;
  w_private_default : list string
}.
Arguments mkWorld {S}.
Arguments w_store {S}.
Arguments w_log {S}.
Arguments w_now {S}.
Arguments w_public_default {S}.
Arguments w_private_default {S}.

Inductive Result (A : Type) : Type :=
| Ok (a : A)
| Raise (e : exn).
Arguments Ok {A} a.
Arguments Raise {A} e.

Definition M (S A : Type) : Type := World S -> Result A * World S.

Definition ret {S A} (a : A) : M S A := fun w => (Ok a, w).

Definition raise {S A} (e : exn) : M S A := fun w => (Raise e, w).

Definition bind {S A B} (m : M S A) (k : A -> M S B) : M S B :=
  fun w =>
    match m w with
    | (Ok a, w') => k a w'
    | (Raise e, w') => (Raise e, w')
    end.

Notation "'let!' x ':=' m 'in' k" := (bind m (fun x => k))
  (at level 100, x name, m at level 99, k at level 200).
Notation "'run!' m 'in' k" := (bind m (fun _ => k))
  (at level 100, m at level 99, k at level 200).

(** [yield d]: the result of the Deferred, or its failure raised at the
    [yield]. *)
Definition yield {S A} (d : Deferred A) : M S A :=
  match d with
  | Fired a => ret a
  | Failed f => raise (StoreFault f)
  end.

(** [try: body except: pass] with a bare [except]: every exception of
    the body is discarded.  What the body assigned is delivered as
    [Some]; after an exception the assignment has not happened. *)
Definition try_except_pass {S A} (body : M S A) : M S (option A) :=
  fun w =>
    match body w with
    | (Ok a, w') => (Ok (Some a), w')
    | (Raise _, w') => (Ok None, w')
    end.

(** [try: body except StoreException: handler]. *)
Definition try_except_StoreException {S A} (body handler : M S A) : M S A :=
  fun w =>
    match body w with
    | (Raise (StoreFault StoreException), w') => handler w'
    | r => r
    end.

(** Reading a local variable that a skipped assignment left unbound. *)
Definition read_local {S A} (name : string) (v : option A) : M S A :=
  match v with
  | Some a => ret a
  | None => raise (UnboundLocalError name)
  end.

(** The clock. *)
Definition time_time {S} : M S Z := fun w => (Ok (w_now w), w).

(** Calling a store method: the call is logged, the store moves to its
    next state, and the caller holds the Deferred. *)
Definition call {S A} (c : StoreCall) (op : S -> Deferred A * S)
  : M S (Deferred A) :=
  fun w =>
    let '(d, s') := op (w_store w) in
    (Ok d, mkWorld s' (w_log w ++ [c]) (w_now w)
                   (w_public_default w) (w_private_default w)).

(** The world in which the module has just been loaded: the default
    arguments of [get_room_path_data] are [[]] and [["join"]]. *)
Definition initial_world {S} (s : S) (now : Z) : World S :=
  mkWorld s [] now [] ["join"].

(** An omitted argument is bound to the function's default object. *)
Definition default_arg {S A} (dflt : World S -> A) (arg : option A) : M S A :=
  fun w => (Ok (match arg with Some a => a | None => dflt w end), w).

(** ** What a handler holds *)

(** [self.store], and what the module imports from elsewhere:
    [json.dumps] and the two event type constants. *)
Record Env (S : Type) : Type := mkEnv {
  store : StoreImpl S;
  json_dumps : json -> string;
  RoomTopicEvent_TYPE : string;
  MessageEvent_TYPE : string
}.
Arguments store {S}.
Arguments json_dumps {S}.
Arguments RoomTopicEvent_TYPE {S}.
Arguments MessageEvent_TYPE {S}.

(** Modelled from the spec: [event_factory.create_event], which is not
    part of this module; it builds the event from its keyword
    arguments.  A message event carries no membership. *)
Definition create_event (etype room_id user_id : string) (msg_id : pystr)
    (auth_user_id : pystr) (content : json) : Event :=
  mkEvent etype room_id user_id auth_user_id None content msg_id.

(** The methods of [self.store], each logging its call. *)
Module Store.
Section methods.
Context {S : Type} (self : Env S).

Definition get_room (room_id : string) : M S (Deferred (pyres Room)) :=
  call (CGetRoom room_id) (st_get_room (store self) room_id).

Definition store_room (room_id room_creator_user_id : pystr)
    (is_public : bool) : M S (Deferred pystr) :=
  call (CStoreRoom room_id room_creator_user_id is_public)
       (st_store_room (store self) room_id room_creator_user_id is_public).

Definition get_room_member (room_id : string) (user_id : pystr)
  : M S (Deferred (pyres RoomMember)) :=
  call (CGetRoomMember room_id user_id)
       (st_get_room_member (store self) room_id user_id).

Definition store_room_member (user_id room_id : string) (content : json)
    (membership : pystr) : M S (Deferred unit) :=
  call (CStoreRoomMember user_id room_id content membership)
       (st_store_room_member (store self) user_id room_id content membership).

Definition get_message (room_id : string) (msg_id : pystr)
    (user_id : string) : M S (Deferred (pyres Message)) :=
  call (CGetMessage room_id msg_id user_id)
       (st_get_message (store self) room_id msg_id user_id).

Definition store_message (user_id room_id : string) (msg_id : pystr)
    (content : string) : M S (Deferred unit) :=
  call (CStoreMessage user_id room_id msg_id content)
       (st_store_message (store self) user_id room_id msg_id content).

Definition store_path_data (room_id path content : string)
  : M S (Deferred unit) :=
  call (CStorePathData room_id path content)
       (st_store_path_data (store self) room_id path content).

Definition get_path_data (path : string) : M S (Deferred (pyres string)) :=
  call (CGetPathData path) (st_get_path_data (store self) path).
End methods.
End Store.

(** ** The handlers *)

(** [member and member[0].membership == "join"], as a truth value. *)
Definition joined (member : pyres RoomMember) : bool :=
  truthy member &&
  match first member with
  | Some m0 => pystr_eqb (membership m0) (Some "join")
  | None => false
  end.

(** [member[0].membership if member else None] *)
Definition member_state_of (member : pyres RoomMember) : pystr :=
  if truthy member then
    match first member with
    | Some m0 => membership m0
    | None => None
    end
  else None.

Section get_joined.
Context {S : Type} (self : Env S).

Definition _get_joined_or_throw (user_id : pystr) (room_id : string)
  : M S (pyres RoomMember) :=
  let! d := Store.get_room_member self room_id user_id in
  let! member := yield d in
  if negb (truthy member)
     || negb (pystr_eqb (member_state_of member) (Some "join"))
  then raise (RoomError 403 "Haven't joined room.'")
  else ret member.
End get_joined.

Module MessageHandler.
Section handlers.
Context {S : Type} (self : Env S).

Definition get_message (event : Event) : M S (option Message) :=
  run! (if truthy (e_auth_user_id event)
        then run! _get_joined_or_throw self (e_auth_user_id event)
                                       (e_room_id event) in ret tt
        else ret tt) in
  let! d := Store.get_message self (e_room_id event) (e_msg_id event)
                              (e_user_id event) in
  let! results := yield d in
  if truthy results then ret (first results) else ret None.

Definition send_message (event : Event) : M S unit :=
  run! (if truthy (e_auth_user_id event) then
          if negb (pystr_eqb (Some (e_user_id event)) (e_auth_user_id event))
          then raise (RoomError 403 "Must send messages as yourself.")
          else run! _get_joined_or_throw self (e_auth_user_id event)
                                         (e_room_id event) in ret tt
        else ret tt) in
  let! d := Store.store_message self (e_user_id event) (e_room_id event)
              (e_msg_id event) (json_dumps self (e_content event)) in
  yield d.

Definition store_room_path_data (event : Event) (path : string)
  : M S unit :=
  run! (if truthy (e_auth_user_id event)
        then run! _get_joined_or_throw self (e_auth_user_id event)
                                       (e_room_id event) in ret tt
        else ret tt) in
  let! d := Store.store_path_data self (e_room_id event) path
              (json_dumps self (e_content event)) in
  yield d.

Definition get_room_path_data (event : Event) (path : string)
    (public_arg private_arg : option (list string))
  : M S (pyres string) :=
  let! public_room_rules := default_arg w_public_default public_arg in
  let! private_room_rules := default_arg w_private_default private_arg in
  let private_room_rules :=
    if String.eqb (e_type event) (RoomTopicEvent_TYPE self)
    then ["invite"; "join"]
    else private_room_rules in
  let! d := Store.get_room self (e_room_id event) in
  let! room := yield d in
  (* if not room: raise ...; room = room[0] *)
  match first room with
  | None => raise (RoomError 403 "Room does not exist.")
  | Some room =>
    let! d := Store.get_room_member self (e_room_id event)
                (if negb (truthy (e_auth_user_id event)) then Some ""
                 else e_auth_user_id event) in
    let! member := yield d in
    let member_state := member_state_of member in
    run! (if is_public room && truthy public_room_rules then
            if negb (py_in member_state public_room_rules)
            then raise (RoomError 403 "Member does not meet public room rules.")
            else ret tt
          else if negb (is_public room) && truthy private_room_rules then
            if negb (py_in member_state private_room_rules)
            then raise (RoomError 403 "Member does not meet private room rules.")
            else ret tt
          else ret tt) in
    let! d := Store.get_path_data self path in
    yield d
  end.
End handlers.
End MessageHandler.

(** [config[key]] for the [config] dict, whose default is [None]. *)
Definition subscript {S} (config : option (gmap string json)) (key : string)
  : M S json :=
  match config with
  | None => raise (TypeError "'NoneType' object is not subscriptable")
  | Some d =>
    match d !! key with
    | Some v => ret v
    | None => raise (KeyError key)
    end
  end.

(** [v == s] for a JSON value and a string literal. *)
Definition json_eq_str (v : json) (s : string) : bool :=
  match v with
  | JStr s' => String.eqb s' s
  | _ => false
  end.

Module RoomCreationHandler.
Section handlers.
Context {S : Type} (self : Env S).

Definition create_room (user_id room_id : pystr)
    (config : option (gmap string json)) : M S pystr :=
  try_except_StoreException
    (let! visibility := subscript config "visibility" in
     let! d := Store.store_room self room_id user_id
                 (json_eq_str visibility "public") in
     let! new_room_id := yield d in
     if negb (truthy new_room_id)
     then raise (RoomError 409 "Room ID in use.")
     else ret new_room_id)
    (raise (RoomError 500 "Unable to create room.")).
End handlers.
End RoomCreationHandler.

Module RoomMemberHandler.
Section handlers.
Context {S : Type} (self : Env S).

(** Returns [member[0]], or [member] itself when it is not true. *)
Definition get_room_member (event : Event)
  : M S (RoomMember + pyres RoomMember) :=
  run! (if truthy (e_auth_user_id event)
        then run! _get_joined_or_throw self (e_auth_user_id event)
                                       (e_room_id event) in ret tt
        else ret tt) in
  let! d := Store.get_room_member self (e_room_id event)
              (Some (e_user_id event)) in
  let! member := yield d in
  match first member with
  | Some m0 => ret (inl m0)
  | None => ret (inr member)
  end.

Definition _inject_membership_msg (room_id : string) (source : pystr)
    (target : string) (membership : pystr) : M S unit :=
  let! body :=
    if pystr_eqb membership (Some Membership.INVITE)
    then ret (py_str source ++ " invited " ++ target ++ " to the room.")
    else if pystr_eqb membership (Some Membership.JOIN)
    then ret (target ++ " joined the room.")
    else if pystr_eqb membership (Some Membership.LEAVE)
    then ret (target ++ " left the room.")
    else raise (RoomError 500
                  ("Unknown membership value " ++ py_str membership)) in
  let membership_json :=
    JObj [("msgtype", JStr "sy.text"); ("body", JStr body)] in
  let! now := time_time in
  let msg_id := "m" ++ pretty now in
  let event := create_event (MessageEvent_TYPE self) room_id "_hs_"
                 (Some msg_id) None membership_json in
  MessageHandler.send_message self event.

Definition change_membership (event : Event) (broadcast_msg : bool)
  : M S unit :=
  (* room = self.store.get_room(event.room_id): there is no yield,
     [room] is the Deferred itself *)
  let! room := Store.get_room self (e_room_id event) in
  if negb (truthy room) then raise (RoomError 403 "Room does not exist")
  else
  (* get info about the caller *)
  let! caller_local :=
    try_except_pass
      (let! d := Store.get_room_member self (e_room_id event)
                   (e_auth_user_id event) in
       yield d) in
  let! caller := read_local "caller" caller_local in
  let caller_in_room := joined caller in
  (* get info about the target *)
  let! target_local :=
    try_except_pass
      (let! d := Store.get_room_member self (e_room_id event)
                   (Some (e_user_id event)) in
       yield d) in
  let! target := read_local "target" target_local in
  let target_in_room := joined target in
  run! (if pystr_eqb (Some Membership.INVITE) (e_membership event) then
          if negb caller_in_room || target_in_room
          then raise (RoomError 403 "Cannot invite.")
          else ret tt
        else if pystr_eqb (Some Membership.JOIN) (e_membership event) then
          if negb (pystr_eqb (e_auth_user_id event) (Some (e_user_id event)))
             || negb (truthy caller)
             || negb (py_in (member_state_of caller)
                            [Membership.INVITE; Membership.JOIN])
          then raise (RoomError 403 "Cannot join.")
          else ret tt
        else if pystr_eqb (Some Membership.LEAVE) (e_membership event) then
          if negb caller_in_room
             || negb (pystr_eqb (Some (e_user_id event))
                                (e_auth_user_id event))
          then raise (RoomError 403 "Cannot leave.")
          else ret tt
        else raise (RoomError 500
                      ("Unknown membership " ++ py_str (e_membership event))))
  in
  (* store membership *)
  let! d := Store.store_room_member self (e_user_id event) (e_room_id event)
              (e_content event) (e_membership event) in
  run! yield d in
  if broadcast_msg
  then _inject_membership_msg (e_room_id event) (e_auth_user_id event)
                              (e_user_id event) (e_membership event)
  else ret tt.
End handlers.
End RoomMemberHandler.

(** ** An in-memory store *)

(** Modelled from the spec: the store itself is outside this module;
    this is the store contract (rooms keyed by id with duplicate ids
    rejected, one membership record per room and user with the latest
    write current, absent rows reported as [None]) with a table [fault]
    saying which calls fail, and how.  A failing call writes nothing. *)
Record Mem : Type := mkMem {
  mem_rooms : gmap string Room;
  mem_members : gmap (string * pystr) RoomMember;
  mem_messages : list Message;
  mem_paths : gmap string string
}.

Definition mem_empty : Mem := mkMem ∅ ∅ [] ∅.

Definition rows_of {A} (o : option A) : pyres A :=
  match o with
  | Some a => PyList [a]
  | None => PyNone
  end.

Definition guarded {A} (fault : StoreCall -> option store_fault)
    (c : StoreCall) (op : Mem -> A * Mem) (s : Mem) : Deferred A * Mem :=
  match fault c with
  | Some f => (Failed f, s)
  | None => let '(a, s') := op s in (Fired a, s')
  end.

Definition mem_store (fault : StoreCall -> option store_fault)
  : StoreImpl Mem :=
  {| st_get_room room_id :=
       guarded fault (CGetRoom room_id)
         (fun s => (rows_of (mem_rooms s !! room_id), s));
     st_store_room room_id creator public :=
       guarded fault (CStoreRoom room_id creator public)
         (fun s =>
            let id := match room_id with
                      | Some id => id
                      | None => "!" ++ pretty (Z.of_nat (size (mem_rooms s)))
                      end in
            match mem_rooms s !! id with
            | Some _ => (None, s)
            | None =>
              (Some id,
               mkMem (<[id := mkRoom id public creator]> (mem_rooms s))
                     (mem_members s) (mem_messages s) (mem_paths s))
            end);
     st_get_room_member room_id user_id :=
       guarded fault (CGetRoomMember room_id user_id)
         (fun s => (rows_of (mem_members s !! (room_id, user_id)), s));
     st_store_room_member user_id room_id content membership :=
       guarded fault (CStoreRoomMember user_id room_id content membership)
         (fun s =>
            (tt,
             mkMem (mem_rooms s)
                   (<[(room_id, Some user_id) :=
                        mkRoomMember room_id (Some user_id) membership content]>
                      (mem_members s))
                   (mem_messages s) (mem_paths s)));
     st_get_message room_id msg_id user_id :=
       guarded fault (CGetMessage room_id msg_id user_id)
         (fun s =>
            (PyList (filter (fun m => g_room_id m = room_id
                                      /\ g_msg_id m = msg_id
                                      /\ g_user_id m = user_id)
                            (mem_messages s)), s));
     st_store_message user_id room_id msg_id content :=
       guarded fault (CStoreMessage user_id room_id msg_id content)
         (fun s =>
            (tt,
             mkMem (mem_rooms s) (mem_members s)
                   (mem_messages s ++ [mkMessage room_id user_id msg_id content])
                   (mem_paths s)));
     st_store_path_data room_id path content :=
       guarded fault (CStorePathData room_id path content)
         (fun s =>
            (tt,
             mkMem (mem_rooms s) (mem_members s) (mem_messages s)
                   (<[path := content]> (mem_paths s))));
     st_get_path_data path :=
       guarded fault (CGetPathData path)
         (fun s => (rows_of (mem_paths s !! path), s)) |}.

(** No call fails. *)
Definition no_fault : StoreCall -> option store_fault := fun _ => None.

(** Every membership lookup fails with the store's exception. *)
Definition lookup_down (c : StoreCall) : option store_fault :=
  match c with
  | CGetRoomMember _ _ => Some StoreException
  | _ => None
  end.

(** A rendering of JSON content, for running the handlers; the handlers
    are proved correct for every [json_dumps]. *)
Fixpoint dumps (j : json) : string :=
  match j with
  | JNull => "null"
  | JBool true => "true"
  | JBool false => "false"
  | JNum n => pretty n
  | JStr s => "'" ++ s ++ "'"
  | JList l => "[" ++ String.concat ", " (List.map dumps l) ++ "]"
  | JObj fs =>
    "{" ++ String.concat ", "
             (List.map (fun kv => "'" ++ fst kv ++ "': " ++ dumps (snd kv)) fs)
        ++ "}"
  end.

Definition mem_env (fault : StoreCall -> option store_fault) : Env Mem :=
  mkEnv Mem (mem_store fault) dumps "sy.room.topic" "sy.room.message".

(** Some rows to run the handlers on: a private room [r1] created by
    [A], who has joined it, and a public room [r2]. *)
Definition member_row (room user state : string) : RoomMember :=
  mkRoomMember room (Some user) (Some state) JNull.

Definition mem_r1 : Mem :=
  mkMem (<["r2" := mkRoom "r2" true (Some "A")]>
           (<["r1" := mkRoom "r1" false (Some "A")]> ∅))
        (<[("r1", Some "A") := member_row "r1" "A" "join"]> ∅)
        [] (<["topic" := "'hello'"]> ∅).

Definition membership_event (room target : string) (caller state : pystr)
  : Event :=
  mkEvent "sy.room.member" room target caller state JNull None.

(** Only the lookup of the target [B]'s membership fails. *)
Definition target_lookup_down (c : StoreCall) : option store_fault :=
  match c with
  | CGetRoomMember _ (Some "B") => Some StoreException
  | _ => None
  end.

(** [r1] after [A] has invited [B]. *)
Definition mem_r1_invited : Mem :=
  mkMem (mem_rooms mem_r1)
        (<[("r1", Some "B") := member_row "r1" "B" "invite"]>
           (mem_members mem_r1))
        [] (mem_paths mem_r1).

Definition w_r1 : World Mem := initial_world mem_r1 1400000000.
Definition w_r1_invited : World Mem := initial_world mem_r1_invited 1400000000.

(** Requests to run the handlers on. *)
Definition ev_invite_B : Event :=
  membership_event "r1" "B" (Some "A") (Some Membership.INVITE).
Definition ev_join_B : Event :=
  membership_event "r1" "B" (Some "B") (Some Membership.JOIN).
Definition ev_knock_A : Event :=
  membership_event "r1" "A" (Some "A") (Some Membership.KNOCK).
Definition ev_join_nowhere : Event :=
  membership_event "nowhere" "A" (Some "A") (Some Membership.JOIN).
Definition ev_knock_nowhere : Event :=
  membership_event "nowhere" "A" (Some "A") (Some Membership.KNOCK).

(** ** Reading the outcome of a run *)

(** The world after the store has moved to [s] and [calls] were logged. *)
Definition after {S} (w : World S) (s : S) (calls : list StoreCall)
  : World S :=
  mkWorld s (w_log w ++ calls) (w_now w)
          (w_public_default w) (w_private_default w).

(** What [yield d] makes of a Deferred. *)
Definition outcome_of {A} (d : Deferred A) : Result A :=
  match d with
  | Fired a => Ok a
  | Failed f => Raise (StoreFault f)
  end.

(** The error classes of the error surface: a [RoomError] with code
    403, 409 or 500. *)
Definition AuthorizationError (msg : string) : exn := RoomError 403 msg.
Definition ConflictError (msg : string) : exn := RoomError 409 msg.
Definition InternalError (msg : string) : exn := RoomError 500 msg.

(** A store call that only reads. *)
Definition is_lookup (c : StoreCall) : bool :=
  match c with
  | CGetRoom _ | CGetRoomMember _ _ | CGetMessage _ _ _ | CGetPathData _ =>
    true
  | _ => false
  end.

(** *** The transition table, as the specification words it *)

(** [inJoin(x)]: x's current state is JOIN. *)
Definition inJoin (state : pystr) : bool := pystr_eqb state (Some "join").

(** The row of the table for [requested]: the error of an invalid
    request, [None] for a valid one.  [caller_id] and [target_id] are
    the two user ids, [c] and [t] the current states of caller and
    target ([None] without a record). *)
Definition transition_error (requested caller_id : pystr) (target_id : string)
    (c t : pystr) : option exn :=
  if pystr_eqb requested (Some "invite") then
    if inJoin c && negb (inJoin t) then None
    else Some (AuthorizationError "Cannot invite.")
  else if pystr_eqb requested (Some "join") then
    if pystr_eqb caller_id (Some target_id)
       && (pystr_eqb c (Some "invite") || pystr_eqb c (Some "join"))
    then None
    else Some (AuthorizationError "Cannot join.")
  else if pystr_eqb requested (Some "leave") then
    if inJoin c && pystr_eqb caller_id (Some target_id) then None
    else Some (AuthorizationError "Cannot leave.")
  else Some (InternalError ("Unknown membership " ++ py_str requested)).

(** The three lookups with which [change_membership] begins. *)
Definition lookups (event : Event) : list StoreCall :=
  [CGetRoom (e_room_id event);
   CGetRoomMember (e_room_id event) (e_auth_user_id event);
   CGetRoomMember (e_room_id event) (Some (e_user_id event))].

(** The membership write of [change_membership]. *)
Definition membership_write (event : Event) : StoreCall :=
  CStoreRoomMember (e_user_id event) (e_room_id event) (e_content event)
                   (e_membership event).

(** The body of the notifier's message, by the fixed template. *)
Definition template (state source : pystr) (target : string)
  : option string :=
  if pystr_eqb state (Some "invite")
  then Some (py_str source ++ " invited " ++ target ++ " to the room.")
  else if pystr_eqb state (Some "join")
  then Some (target ++ " joined the room.")
  else if pystr_eqb state (Some "leave")
  then Some (target ++ " left the room.")
  else None.

(** The store call that sends the notifier's message with body [body]. *)
Definition notifier_message {S} (self : Env S) (room_id : string) (now : Z)
    (body : string) : StoreCall :=
  CStoreMessage "_hs_" room_id (Some ("m" ++ pretty now))
    (json_dumps self (JObj [("msgtype", JStr "sy.text"); ("body", JStr body)])).

(** *** The access decision, as the specification words it *)

(** The applicable rule set is [public_rules] in a public room and
    [private_rules] in a private one; an empty applicable rule set
    allows every state, otherwise the state must be in it. *)
Definition access_allowed (public : bool)
    (public_rules private_rules : list string) (state : pystr) : bool :=
  match (if public then public_rules else private_rules) with
  | [] => true
  | rule :: rules => py_in state (rule :: rules)
  end.

(** The user whose membership [get_room_path_data] looks up. *)
Definition requester (event : Event) : pystr :=
  if negb (truthy (e_auth_user_id event)) then Some ""
  else e_auth_user_id event.

(** Requests for path data: [B] reads the topic of [r1], [B] reads
    another path of [r1], and a request without a user reads a path of
    the public room [r2]. *)
Definition ev_topic_B : Event :=
  mkEvent "sy.room.topic" "r1" "B" (Some "B") None JNull None.
Definition ev_path_B : Event :=
  mkEvent "sy.room.config" "r1" "B" (Some "B") None JNull None.
Definition ev_path_anonymous : Event :=
  mkEvent "sy.room.config" "r2" "" None None JNull None.

(** Messages: [A] writes as [A], and [A] writes under the name [B]. *)
Definition ev_message_A : Event :=
  mkEvent "sy.room.message" "r1" "A" (Some "A") None (JStr "hi") (Some "m1").
Definition ev_message_as_B : Event :=
  mkEvent "sy.room.message" "r1" "B" (Some "A") None (JStr "hi") (Some "m1").

(** [A] asks for the member [B] of [r1]. *)
Definition ev_member_B : Event :=
  mkEvent "sy.room.member" "r1" "B" (Some "A") None JNull None.

(** The configuration of a private room. *)
Definition cfg_private : gmap string json :=
  {["visibility" := JStr "private"]}.

(** The ways in which a run of [change_membership] can end. *)
Inductive cm_outcome {S} (event : Event) (w : World S)
  : Result unit * World S -> Prop :=
| cm_unbound name s calls :
    forallb is_lookup calls = true ->
    cm_outcome event w (Raise (UnboundLocalError name), after w s calls)
| cm_denied e s :
    (e = AuthorizationError "Cannot invite."
     \/ e = AuthorizationError "Cannot join."
     \/ e = AuthorizationError "Cannot leave."
     \/ e = InternalError ("Unknown membership " ++ py_str (e_membership event))) ->
    cm_outcome event w (Raise e, after w s (lookups event))
| cm_fault f s calls :
    cm_outcome event w
      (Raise (StoreFault f),
       after w s (lookups event ++ membership_write event :: calls))
| cm_done s calls :
    cm_outcome event w
      (Ok tt, after w s (lookups event ++ membership_write event :: calls)).

(** *** Stores and requests for the remaining handlers *)

(** [s'] is reached from [s] by the store calls [calls], all of which
    are lookups. *)
Inductive only_reads {S} (sigma : StoreImpl S)
  : S -> list StoreCall -> S -> Prop :=
| reads_done s : only_reads sigma s [] s
| reads_room s room_id calls s' :
    only_reads sigma (snd (st_get_room sigma room_id s)) calls s' ->
    only_reads sigma s (CGetRoom room_id :: calls) s'
| reads_member s room_id user_id calls s' :
    only_reads sigma (snd (st_get_room_member sigma room_id user_id s))
               calls s' ->
    only_reads sigma s (CGetRoomMember room_id user_id :: calls) s'
| reads_message s room_id msg_id user_id calls s' :
    only_reads sigma (snd (st_get_message sigma room_id msg_id user_id s))
               calls s' ->
    only_reads sigma s (CGetMessage room_id msg_id user_id :: calls) s'
| reads_path s path calls s' :
    only_reads sigma (snd (st_get_path_data sigma path s)) calls s' ->
    only_reads sigma s (CGetPathData path :: calls) s'.

(** Every message write fails. *)
Definition message_down (c : StoreCall) : option store_fault :=
  match c with
  | CStoreMessage _ _ _ _ => Some StoreException
  | _ => None
  end.

(** Every membership write fails. *)
Definition write_down (c : StoreCall) : option store_fault :=
  match c with
  | CStoreRoomMember _ _ _ _ => Some StoreException
  | _ => None
  end.

(** Creating a room fails with an error that is not the store's own
    exception. *)
Definition driver_down (c : StoreCall) : option store_fault :=
  match c with
  | CStoreRoom _ _ _ => Some (OtherFault "OperationalError")
  | _ => None
  end.

(** [r1] with one message of [A]. *)
Definition mem_r1_msg : Mem :=
  mkMem (mem_rooms mem_r1) (mem_members mem_r1)
        [mkMessage "r1" "A" (Some "m1") "'hi'"] (mem_paths mem_r1).

Definition w_r1_msg : World Mem := initial_world mem_r1_msg 1400000000.

(** A membership request for any room, caller, target and state. *)
Definition ev_leave_A : Event :=
  membership_event "r1" "A" (Some "A") (Some Membership.LEAVE).
Definition ev_A_joins_B : Event :=
  membership_event "r1" "B" (Some "A") (Some Membership.JOIN).

(** [B], who is not in [r1], asks for [A]'s message, and stores a
    topic; a request without a user stores a topic. *)
Definition ev_message_by_B : Event :=
  mkEvent "sy.room.message" "r1" "A" (Some "B") None (JStr "hi") (Some "m1").
Definition ev_store_topic_B : Event :=
  mkEvent "sy.room.topic" "r1" "B" (Some "B") None (JStr "new") None.
Definition ev_store_topic_A : Event :=
  mkEvent "sy.room.topic" "r1" "A" (Some "A") None (JStr "new") None.
Definition ev_topic_nowhere : Event :=
  mkEvent "sy.room.topic" "nowhere" "A" (Some "A") None JNull None.

(** A configuration without visibility. *)
Definition cfg_empty : gmap string json := ∅.

(** The current state of [user_id] in [room_id] in the in-memory
    store: what [member[0].membership if member else None] makes of the
    store's answer. *)
Definition mem_state (s : Mem) (room_id : string) (user_id : pystr) : pystr :=
  member_state_of (rows_of (mem_members s !! (room_id, user_id))).

(** The in-memory store after the membership write of [event]. *)
Definition mem_written (s : Mem) (event : Event) : Mem :=
  mkMem (mem_rooms s)
        (<[(e_room_id event, Some (e_user_id event)) :=
             mkRoomMember (e_room_id event) (Some (e_user_id event))
                          (e_membership event) (e_content event)]>
           (mem_members s))
        (mem_messages s) (mem_paths s).

Definition ev_topic_A : Event :=
  mkEvent "sy.room.topic" "r1" "A" (Some "A") None JNull None.

(** A run from [w] that ended in [r] has taken the store through
    lookups only. *)
Definition read_only_run {S A} (self : Env S) (w : World S)
    (r : Result A * World S) : Prop :=
  exists s calls,
    snd r = after w s calls /\ only_reads (store self) (w_store w) calls s.

(** ** Basic facts *)

Lemma pystr_eqb_eq (a b : pystr) : pystr_eqb a b = true <-> a = b.
Proof.
  destruct a as [x|], b as [y|]; simpl; try (split; congruence).
  rewrite String.eqb_eq. split; congruence.
Qed.

Lemma pystr_eqb_sym (a b : pystr) : pystr_eqb a b = pystr_eqb b a.
Proof.
  destruct a as [x|], b as [y|]; simpl; try reflexivity.
  apply String.eqb_sym.
Qed.

Lemma pystr_eqb_refl (a : pystr) : pystr_eqb a a = true.
Proof. apply pystr_eqb_eq. reflexivity. Qed.

Lemma joined_state (member : pyres RoomMember) :
  joined member = inJoin (member_state_of member).
Proof.
  unfold joined, member_state_of, inJoin.
  destruct member as [|[|m0 l]]; reflexivity.
Qed.

Lemma py_in_invite_join (x : pystr) :
  py_in x [Membership.INVITE; Membership.JOIN]
  = (pystr_eqb x (Some "invite") || pystr_eqb x (Some "join")).
Proof. unfold py_in. simpl. rewrite orb_false_r. reflexivity. Qed.

Lemma member_state_truthy (member : pyres RoomMember) :
  truthy member = false -> member_state_of member = None.
Proof. unfold member_state_of. intros ->. reflexivity. Qed.

Lemma after_after {S} (w : World S) s cs s' cs' :
  after (after w s cs) s' cs' = after w s' (cs ++ cs').
Proof. unfold after. simpl. rewrite <- app_assoc. reflexivity. Qed.

Lemma call_run {S A} (c : StoreCall) (op : S -> Deferred A * S) (w : World S) :
  call c op w = (Ok (fst (op (w_store w))), after w (snd (op (w_store w))) [c]).
Proof. unfold call, after. destruct (op (w_store w)). reflexivity. Qed.

Lemma after_nil {S} (w : World S) : after w (w_store w) [] = w.
Proof. unfold after. rewrite app_nil_r. destruct w. reflexivity. Qed.

(** *** Running a handler step by step *)

Lemma bind_ret {S A B} (a : A) (k : A -> M S B) (w : World S) :
  bind (ret a) k w = k a w.
Proof. reflexivity. Qed.

Lemma bind_raise {S A B} (e : exn) (k : A -> M S B) (w : World S) :
  bind (raise e) k w = (Raise e, w).
Proof. reflexivity. Qed.

Lemma bind_call {S A B} (c : StoreCall) (op : S -> Deferred A * S)
    (k : Deferred A -> M S B) (w : World S) :
  bind (call c op) k w
  = k (fst (op (w_store w))) (after w (snd (op (w_store w))) [c]).
Proof. unfold bind. rewrite call_run. reflexivity. Qed.

Lemma bind_yield {S A B} (d : Deferred A) (k : A -> M S B) (w : World S) :
  bind (yield d) k w
  = match d with
    | Fired a => k a w
    | Failed f => (Raise (StoreFault f), w)
    end.
Proof. destruct d; reflexivity. Qed.

Lemma run_yield {S A} (d : Deferred A) (w : World S) :
  yield d w = (outcome_of d, w).
Proof. destruct d; reflexivity. Qed.

Lemma try_lookup {S A} (c : StoreCall) (op : S -> Deferred A * S)
    (w : World S) :
  try_except_pass (bind (call c op) (fun d => yield d)) w
  = (Ok match fst (op (w_store w)) with
        | Fired a => Some a
        | Failed _ => None
        end,
     after w (snd (op (w_store w))) [c]).
Proof.
  unfold try_except_pass. rewrite bind_call, run_yield.
  destruct (fst (op (w_store w))); reflexivity.
Qed.

Lemma bind_try_lookup {S A B} (c : StoreCall) (op : S -> Deferred A * S)
    (k : option A -> M S B) (w : World S) :
  bind (try_except_pass (bind (call c op) (fun d => yield d))) k w
  = k match fst (op (w_store w)) with
      | Fired a => Some a
      | Failed _ => None
      end
      (after w (snd (op (w_store w))) [c]).
Proof. unfold bind at 1. rewrite try_lookup. reflexivity. Qed.

Lemma w_store_after {S} (w : World S) s cs : w_store (after w s cs) = s.
Proof. reflexivity. Qed.

Lemma w_now_after {S} (w : World S) s cs : w_now (after w s cs) = w_now w.
Proof. reflexivity. Qed.

(** ** The notifier *)

Section notifier_facts.
Context {S : Type} (self : Env S).

(** The system path of [send_message]: without a requester the
    message goes straight to the store. *)
Lemma send_message_system (event : Event) (w : World S) :
  truthy (e_auth_user_id event) = false ->
  MessageHandler.send_message self event w
  = let c := CStoreMessage (e_user_id event) (e_room_id event)
               (e_msg_id event) (json_dumps self (e_content event)) in
    let r := st_store_message (store self) (e_user_id event)
               (e_room_id event) (e_msg_id event)
               (json_dumps self (e_content event)) (w_store w) in
    (outcome_of (fst r), after w (snd r) [c]).
Proof.
  intros Hauth. unfold MessageHandler.send_message, bind.
  rewrite Hauth. simpl. unfold Store.store_message. rewrite call_run.
  destruct (st_store_message _ _ _ _ _ _) as [[[]|f] s']; reflexivity.
Qed.

Lemma inject_known room_id source target state body (w : World S) :
  template state source target = Some body ->
  RoomMemberHandler._inject_membership_msg self room_id source target state w
  = let r := st_store_message (store self) "_hs_" room_id
               (Some ("m" ++ pretty (w_now w)))
               (json_dumps self (JObj [("msgtype", JStr "sy.text");
                                       ("body", JStr body)]))
               (w_store w) in
    (outcome_of (fst r),
     after w (snd r) [notifier_message self room_id (w_now w) body]).
Proof.
  unfold template, RoomMemberHandler._inject_membership_msg.
  unfold Membership.INVITE, Membership.JOIN, Membership.LEAVE.
  intros Hbody. unfold bind at 1.
  destruct (pystr_eqb state (Some "invite"));
    [|destruct (pystr_eqb state (Some "join"));
      [|destruct (pystr_eqb state (Some "leave")); [|discriminate]]];
    injection Hbody as <-; unfold ret at 1; unfold bind at 1;
    unfold time_time; rewrite send_message_system by reflexivity;
    reflexivity.
Qed.

Lemma inject_unknown room_id source target state (w : World S) :
  template state source target = None ->
  RoomMemberHandler._inject_membership_msg self room_id source target state w
  = (Raise (InternalError ("Unknown membership value " ++ py_str state)), w).
Proof.
  unfold template, RoomMemberHandler._inject_membership_msg.
  unfold Membership.INVITE, Membership.JOIN, Membership.LEAVE.
  intros Hbody. unfold bind at 1.
  destruct (pystr_eqb state (Some "invite")); [discriminate|].
  destruct (pystr_eqb state (Some "join")); [discriminate|].
  destruct (pystr_eqb state (Some "leave")); [discriminate|].
  reflexivity.
Qed.
End notifier_facts.

(** ** The membership state machine *)

Section change_membership_facts.
Context {S : Type} (self : Env S).

(** The three lookups: the room lookup is never waited for, a failed
    membership lookup leaves its local variable unbound. *)
Lemma change_membership_caller_down event b (w : World S) dr s1 f s2 :
  st_get_room (store self) (e_room_id event) (w_store w) = (dr, s1) ->
  st_get_room_member (store self) (e_room_id event) (e_auth_user_id event) s1
    = (Failed f, s2) ->
  RoomMemberHandler.change_membership self event b w
  = (Raise (UnboundLocalError "caller"),
     after w s2 [CGetRoom (e_room_id event);
                 CGetRoomMember (e_room_id event) (e_auth_user_id event)]).
Proof.
  intros Hr Hc. unfold RoomMemberHandler.change_membership.
  unfold Store.get_room, Store.get_room_member.
  rewrite bind_call, Hr. cbn [fst snd truthy truthy_Deferred negb].
  rewrite bind_try_lookup, w_store_after, Hc, after_after.
  reflexivity.
Qed.

Lemma change_membership_target_down event b (w : World S)
    dr s1 caller s2 f s3 :
  st_get_room (store self) (e_room_id event) (w_store w) = (dr, s1) ->
  st_get_room_member (store self) (e_room_id event) (e_auth_user_id event) s1
    = (Fired caller, s2) ->
  st_get_room_member (store self) (e_room_id event) (Some (e_user_id event)) s2
    = (Failed f, s3) ->
  RoomMemberHandler.change_membership self event b w
  = (Raise (UnboundLocalError "target"), after w s3 (lookups event)).
Proof.
  intros Hr Hc Ht. unfold RoomMemberHandler.change_membership.
  unfold Store.get_room, Store.get_room_member.
  rewrite bind_call, Hr. cbn [fst snd truthy truthy_Deferred negb].
  rewrite bind_try_lookup, w_store_after, Hc, after_after.
  cbn [fst snd read_local app]. rewrite bind_ret.
  rewrite bind_try_lookup, w_store_after, Ht, after_after.
  reflexivity.
Qed.

(** Once both membership lookups have returned, the request is
    decided by the transition table; a valid request is written to
    the store and then, if asked for, announced. *)
Lemma change_membership_run event b (w : World S)
    dr s1 caller s2 target s3 :
  st_get_room (store self) (e_room_id event) (w_store w) = (dr, s1) ->
  st_get_room_member (store self) (e_room_id event) (e_auth_user_id event) s1
    = (Fired caller, s2) ->
  st_get_room_member (store self) (e_room_id event) (Some (e_user_id event)) s2
    = (Fired target, s3) ->
  RoomMemberHandler.change_membership self event b w
  = match transition_error (e_membership event) (e_auth_user_id event)
            (e_user_id event) (member_state_of caller)
            (member_state_of target) with
    | Some e => (Raise e, after w s3 (lookups event))
    | None =>
      let r := st_store_room_member (store self) (e_user_id event)
                 (e_room_id event) (e_content event) (e_membership event)
                 s3 in
      let w4 := after w (snd r) (lookups event ++ [membership_write event]) in
      match fst r with
      | Failed f => (Raise (StoreFault f), w4)
      | Fired _ =>
        if b
        then RoomMemberHandler._inject_membership_msg self (e_room_id event)
               (e_auth_user_id event) (e_user_id event) (e_membership event)
               w4
        else (Ok tt, w4)
      end
    end.
Proof.
  intros Hr Hc Ht. unfold RoomMemberHandler.change_membership.
  unfold Store.get_room, Store.get_room_member, Store.store_room_member.
  rewrite bind_call, Hr. cbn [fst snd truthy truthy_Deferred negb].
  rewrite bind_try_lookup, w_store_after, Hc, after_after.
  cbn [fst snd read_local app]. rewrite bind_ret.
  rewrite bind_try_lookup, w_store_after, Ht, after_after.
  cbn [fst snd read_local app]. rewrite bind_ret.
  fold (lookups event).
  unfold transition_error, AuthorizationError, InternalError.
  unfold Membership.INVITE, Membership.JOIN, Membership.LEAVE.
  rewrite !joined_state, py_in_invite_join.
  rewrite !(pystr_eqb_sym (Some _) (e_membership event)).
  rewrite (pystr_eqb_sym (Some (e_user_id event)) (e_auth_user_id event)).
  assert (Hjoin : negb (pystr_eqb (e_auth_user_id event) (Some (e_user_id event)))
                  || negb (truthy caller)
                  || negb (pystr_eqb (member_state_of caller) (Some "invite")
                           || pystr_eqb (member_state_of caller) (Some "join"))
                  = negb (pystr_eqb (e_auth_user_id event) (Some (e_user_id event))
                          && (pystr_eqb (member_state_of caller) (Some "invite")
                              || pystr_eqb (member_state_of caller) (Some "join")))).
  { destruct (truthy caller) eqn:Hcaller.
    - cbn [negb]. rewrite orb_false_r, negb_andb. reflexivity.
    - rewrite (member_state_truthy _ Hcaller). cbn [negb pystr_eqb orb].
      rewrite orb_true_r, andb_false_r. reflexivity. }
  rewrite Hjoin. clear Hjoin.
  assert (Hwrite :
    forall k : M S unit,
    bind (ret tt) (fun _ =>
      bind (call (membership_write event)
              (st_store_room_member (store self) (e_user_id event)
                 (e_room_id event) (e_content event) (e_membership event)))
           (fun d => bind (yield d) (fun _ => k)))
      (after w s3 (lookups event))
    = let r := st_store_room_member (store self) (e_user_id event)
                 (e_room_id event) (e_content event) (e_membership event)
                 s3 in
      let w4 := after w (snd r) (lookups event ++ [membership_write event]) in
      match fst r with
      | Failed f => (Raise (StoreFault f), w4)
      | Fired _ => k w4
      end).
  { intros k. rewrite bind_ret, bind_call, w_store_after, after_after.
    rewrite bind_yield. cbv zeta.
    destruct (fst (st_store_room_member _ _ _ _ _ _)); reflexivity. }
  fold (membership_write event).
  destruct (pystr_eqb (e_membership event) (Some "invite")).
  { destruct (inJoin (member_state_of caller)); cbn [negb orb andb];
      [destruct (inJoin (member_state_of target)); cbn [negb orb andb]|];
      try (rewrite bind_raise; reflexivity).
    rewrite Hwrite. cbv zeta.
    destruct (fst (st_store_room_member _ _ _ _ _ _)); [|reflexivity].
    destruct b; reflexivity. }
  destruct (pystr_eqb (e_membership event) (Some "join")).
  { destruct (pystr_eqb (e_auth_user_id event) (Some (e_user_id event))
              && (pystr_eqb (member_state_of caller) (Some "invite")
                  || pystr_eqb (member_state_of caller) (Some "join")));
      cbn [negb]; try (rewrite bind_raise; reflexivity).
    rewrite Hwrite. cbv zeta.
    destruct (fst (st_store_room_member _ _ _ _ _ _)); [|reflexivity].
    destruct b; reflexivity. }
  destruct (pystr_eqb (e_membership event) (Some "leave")).
  { destruct (inJoin (member_state_of caller)); cbn [negb orb andb];
      [destruct (pystr_eqb (e_auth_user_id event) (Some (e_user_id event)));
       cbn [negb orb andb]|];
      try (rewrite bind_raise; reflexivity).
    rewrite Hwrite. cbv zeta.
    destruct (fst (st_store_room_member _ _ _ _ _ _)); [|reflexivity].
    destruct b; reflexivity. }
  rewrite bind_raise. reflexivity.
Qed.
End change_membership_facts.

Lemma transition_error_cases requested caller_id target_id c t e :
  transition_error requested caller_id target_id c t = Some e ->
  e = AuthorizationError "Cannot invite."
  \/ e = AuthorizationError "Cannot join."
  \/ e = AuthorizationError "Cannot leave."
  \/ e = InternalError ("Unknown membership " ++ py_str requested).
Proof.
  unfold transition_error.
  repeat match goal with
         | |- context [if ?x then _ else _] => destruct x
         end; intros H; inversion H; auto.
Qed.

Lemma transition_valid_template requested caller_id target_id c t source :
  transition_error requested caller_id target_id c t = None ->
  exists body, template requested source target_id = Some body.
Proof.
  unfold transition_error, template.
  destruct (pystr_eqb requested (Some "invite")); [eauto|].
  destruct (pystr_eqb requested (Some "join")); [eauto|].
  destruct (pystr_eqb requested (Some "leave")); [eauto|].
  discriminate.
Qed.

Lemma change_membership_outcome {S} (self : Env S) event b (w : World S) :
  cm_outcome event w (RoomMemberHandler.change_membership self event b w).
Proof.
  destruct (st_get_room (store self) (e_room_id event) (w_store w))
    as [dr s1] eqn:Hr.
  destruct (st_get_room_member (store self) (e_room_id event)
              (e_auth_user_id event) s1) as [[caller|f] s2] eqn:Hc.
  2:{ rewrite (change_membership_caller_down self event b w _ _ _ _ Hr Hc).
      constructor. reflexivity. }
  destruct (st_get_room_member (store self) (e_room_id event)
              (Some (e_user_id event)) s2) as [[target|f] s3] eqn:Ht.
  2:{ rewrite (change_membership_target_down self event b w _ _ _ _ _ _ Hr Hc Ht).
      constructor. reflexivity. }
  rewrite (change_membership_run self event b w _ _ _ _ _ _ Hr Hc Ht).
  destruct (transition_error _ _ _ _ _) as [e|] eqn:He.
  { constructor. eapply transition_error_cases, He. }
  cbv zeta.
  destruct (st_store_room_member _ _ _ _ _ _) as [[[]|f] s4]; cbn [fst snd].
  2:{ apply (cm_fault event w f s4 []). }
  destruct b.
  2:{ apply (cm_done event w s4 []). }
  destruct (transition_valid_template _ _ _ _ _ (e_auth_user_id event) He)
    as [body Hbody].
  rewrite (inject_known self _ _ _ _ _ _ Hbody). cbv zeta.
  rewrite after_after, <- app_assoc. cbn [app].
  destruct (fst (st_store_message _ _ _ _ _ _)) as [[]|f]; constructor.
Qed.

(** ** The room check and the membership lookups *)

(** C1.  The claim is that a request for a room that does not exist is
    refused with "room does not exist" before any membership lookup.
    The code binds [room] to the Deferred returned by
    [self.store.get_room] without waiting for it, and a Deferred is
    always true: for every store, [change_membership] never raises
    "Room does not exist".  With no room [nowhere] in the store, a join
    request is answered "Cannot join." and a knock request "Unknown
    membership knock", both after the two membership lookups. *)
Theorem change_membership_room_check_dead :
  (forall S (self : Env S) event b (w : World S),
     fst (RoomMemberHandler.change_membership self event b w)
     <> Raise (AuthorizationError "Room does not exist"))
  /\ st_get_room (mem_store no_fault) "nowhere" mem_r1 = (Fired PyNone, mem_r1)
  /\ RoomMemberHandler.change_membership (mem_env no_fault) ev_join_nowhere
       false w_r1
     = (Raise (AuthorizationError "Cannot join."),
        after w_r1 mem_r1
          [CGetRoom "nowhere"; CGetRoomMember "nowhere" (Some "A");
           CGetRoomMember "nowhere" (Some "A")])
  /\ RoomMemberHandler.change_membership (mem_env no_fault) ev_knock_nowhere
       false w_r1
     = (Raise (InternalError "Unknown membership knock"),
        after w_r1 mem_r1
          [CGetRoom "nowhere"; CGetRoomMember "nowhere" (Some "A");
           CGetRoomMember "nowhere" (Some "A")]).
Proof.
  split; [|repeat split; vm_compute; reflexivity].
  intros S self event b w.
  pose proof (change_membership_outcome self event b w) as H.
  destruct H as [name s calls _|e s [He|[He|[He|He]]]|f s calls|s calls];
    cbn [fst]; subst; discriminate.
Qed.

(** C2.  The claim is that a membership lookup that fails is treated as
    "no membership" and the decision goes on.  The bare [except: pass]
    does discard the failure, but it leaves the local variable
    unassigned, and the next statement reads it: the request ends with
    an [UnboundLocalError], for the caller's lookup and for the
    target's alike, and no decision is taken. *)
Theorem change_membership_failed_lookup_unbound :
  RoomMemberHandler.change_membership (mem_env lookup_down) ev_invite_B
    false w_r1
  = (Raise (UnboundLocalError "caller"),
     after w_r1 mem_r1 [CGetRoom "r1"; CGetRoomMember "r1" (Some "A")])
  /\ RoomMemberHandler.change_membership (mem_env target_lookup_down)
       ev_invite_B false w_r1
     = (Raise (UnboundLocalError "target"),
        after w_r1 mem_r1
          [CGetRoom "r1"; CGetRoomMember "r1" (Some "A");
           CGetRoomMember "r1" (Some "B")]).
Proof. split; vm_compute; reflexivity. Qed.

(** ** The transitions *)

Lemma inject_not_denied {S} (self : Env S) room_id source target state body
    (w : World S) code msg :
  template state source target = Some body ->
  fst (RoomMemberHandler._inject_membership_msg self room_id source target
         state w)
  <> Raise (RoomError code msg).
Proof.
  intros Hbody. rewrite (inject_known self _ _ _ _ _ _ Hbody). cbv zeta.
  cbn [fst]. destruct (fst (st_store_message _ _ _ _ _ _)); discriminate.
Qed.

(** C3.  An invite is valid iff the caller is joined and the target is
    not.  With both membership lookups answered by the store
    ([caller], [target]) and the membership write accepted, a valid
    invite writes the membership [invite] for the target and then runs
    the notifier if asked to; every other invite is refused with the
    403 error "Cannot invite." and only the lookups have been made.
    Without the notifier the request succeeds iff it is valid. *)
Theorem invite_iff {S} (self : Env S) event b (w : World S)
    dr s1 caller s2 target s3 s4 :
  e_membership event = Some Membership.INVITE ->
  st_get_room (store self) (e_room_id event) (w_store w) = (dr, s1) ->
  st_get_room_member (store self) (e_room_id event) (e_auth_user_id event) s1
    = (Fired caller, s2) ->
  st_get_room_member (store self) (e_room_id event) (Some (e_user_id event)) s2
    = (Fired target, s3) ->
  st_store_room_member (store self) (e_user_id event) (e_room_id event)
    (e_content event) (Some Membership.INVITE) s3 = (Fired tt, s4) ->
  let r := RoomMemberHandler.change_membership self event b w in
  let valid := inJoin (member_state_of caller)
               && negb (inJoin (member_state_of target)) in
  let written := CStoreRoomMember (e_user_id event) (e_room_id event)
                   (e_content event) (Some Membership.INVITE) in
  (valid = true ->
   r = (if b
        then RoomMemberHandler._inject_membership_msg self (e_room_id event)
               (e_auth_user_id event) (e_user_id event)
               (Some Membership.INVITE)
        else ret tt) (after w s4 (lookups event ++ [written])))
  /\ (valid = false ->
      r = (Raise (AuthorizationError "Cannot invite."),
           after w s3 (lookups event)))
  /\ (fst r = Raise (AuthorizationError "Cannot invite.") <-> valid = false)
  /\ (b = false -> (fst r = Ok tt <-> valid = true)).
Proof.
  intros Hm Hr Hc Ht Hw r valid written.
  assert (Hrun := change_membership_run self event b w _ _ _ _ _ _ Hr Hc Ht).
  fold r in Hrun. unfold membership_write in Hrun.
  rewrite Hm in Hrun. rewrite Hw in Hrun.
  unfold transition_error in Hrun. cbn [pystr_eqb Membership.INVITE] in Hrun.
  rewrite String.eqb_refl in Hrun. fold valid in Hrun. fold written in Hrun.
  cbv zeta in Hrun. cbn [fst snd] in Hrun.
  assert (Hvalid : valid = true ->
            r = (if b
                 then RoomMemberHandler._inject_membership_msg self
                        (e_room_id event) (e_auth_user_id event)
                        (e_user_id event) (Some Membership.INVITE)
                 else ret tt) (after w s4 (lookups event ++ [written]))).
  { intros Hv. rewrite Hv in Hrun. rewrite Hrun. destruct b; reflexivity. }
  assert (Hinvalid : valid = false ->
            r = (Raise (AuthorizationError "Cannot invite."),
                 after w s3 (lookups event))).
  { intros Hv. rewrite Hv in Hrun. exact Hrun. }
  repeat split.
  - exact Hvalid.
  - exact Hinvalid.
  - intros Hdenied. destruct valid eqn:Hv; [|reflexivity].
    rewrite (Hvalid eq_refl) in Hdenied. destruct b.
    + exfalso. revert Hdenied. eapply inject_not_denied. reflexivity.
    + discriminate.
  - intros Hv. rewrite (Hinvalid Hv). reflexivity.
  - intros Hok. destruct valid eqn:Hv; [reflexivity|].
    rewrite (Hinvalid eq_refl) in Hok. discriminate.
  - intros Hv. subst b. rewrite (Hvalid Hv). reflexivity.
Qed.

(** [A], joined in [r1], invites [B], who has no record there. *)
Lemma invite_iff_witness :
  (st_get_room_member (mem_store no_fault) "r1" (Some "A") mem_r1
   = (Fired (PyList [member_row "r1" "A" "join"]), mem_r1)
   /\ st_get_room_member (mem_store no_fault) "r1" (Some "B") mem_r1
      = (Fired PyNone, mem_r1))
  /\ RoomMemberHandler.change_membership (mem_env no_fault) ev_invite_B
       false w_r1
     = (Ok tt,
        after w_r1 mem_r1_invited
          [CGetRoom "r1"; CGetRoomMember "r1" (Some "A");
           CGetRoomMember "r1" (Some "B");
           CStoreRoomMember "B" "r1" JNull (Some "invite")]).
Proof.
  split; [split; reflexivity|].
  exact (proj1 (invite_iff (mem_env no_fault) ev_invite_B false w_r1
                  (Fired (PyList [mkRoom "r1" false (Some "A")])) mem_r1
                  (PyList [member_row "r1" "A" "join"]) mem_r1
                  PyNone mem_r1 mem_r1_invited
                  eq_refl eq_refl eq_refl eq_refl eq_refl) eq_refl).
Defined.

(** C4.  A join is valid iff the caller is the target and the caller's
    current state is [invite] or [join].  With both membership lookups
    answered and the membership write accepted, a valid join writes the
    membership [join] for the target (then the notifier, if asked
    for); every other join is refused with the 403 error "Cannot
    join.", in particular a join without a membership record or from
    state [leave]; joining again when already joined succeeds. *)
Theorem join_iff {S} (self : Env S) event b (w : World S)
    dr s1 caller s2 target s3 s4 :
  e_membership event = Some Membership.JOIN ->
  st_get_room (store self) (e_room_id event) (w_store w) = (dr, s1) ->
  st_get_room_member (store self) (e_room_id event) (e_auth_user_id event) s1
    = (Fired caller, s2) ->
  st_get_room_member (store self) (e_room_id event) (Some (e_user_id event)) s2
    = (Fired target, s3) ->
  st_store_room_member (store self) (e_user_id event) (e_room_id event)
    (e_content event) (Some Membership.JOIN) s3 = (Fired tt, s4) ->
  let r := RoomMemberHandler.change_membership self event b w in
  let state := member_state_of caller in
  let valid := pystr_eqb (e_auth_user_id event) (Some (e_user_id event))
               && (pystr_eqb state (Some Membership.INVITE)
                   || pystr_eqb state (Some Membership.JOIN)) in
  let written := CStoreRoomMember (e_user_id event) (e_room_id event)
                   (e_content event) (Some Membership.JOIN) in
  (valid = true ->
   r = (if b
        then RoomMemberHandler._inject_membership_msg self (e_room_id event)
               (e_auth_user_id event) (e_user_id event) (Some Membership.JOIN)
        else ret tt) (after w s4 (lookups event ++ [written])))
  /\ (valid = false ->
      r = (Raise (AuthorizationError "Cannot join."),
           after w s3 (lookups event)))
  /\ (fst r = Raise (AuthorizationError "Cannot join.") <-> valid = false)
  /\ (b = false -> (fst r = Ok tt <-> valid = true))
  /\ (truthy caller = false \/ state = Some Membership.LEAVE ->
      fst r = Raise (AuthorizationError "Cannot join."))
  /\ (e_auth_user_id event = Some (e_user_id event) ->
      state = Some Membership.JOIN -> b = false -> fst r = Ok tt).
Proof.
  intros Hm Hr Hc Ht Hw r state valid written.
  assert (Hrun := change_membership_run self event b w _ _ _ _ _ _ Hr Hc Ht).
  fold r in Hrun. unfold membership_write in Hrun.
  rewrite Hm in Hrun. rewrite Hw in Hrun.
  unfold transition_error in Hrun.
  cbn [pystr_eqb Membership.JOIN String.eqb Ascii.eqb Bool.eqb] in Hrun.
  fold state in Hrun. change (Some "invite") with (Some Membership.INVITE) in Hrun.
  change (Some "join") with (Some Membership.JOIN) in Hrun.
  fold valid in Hrun. fold written in Hrun.
  cbv zeta in Hrun. cbn [fst snd] in Hrun.
  assert (Hvalid : valid = true ->
            r = (if b
                 then RoomMemberHandler._inject_membership_msg self
                        (e_room_id event) (e_auth_user_id event)
                        (e_user_id event) (Some Membership.JOIN)
                 else ret tt) (after w s4 (lookups event ++ [written]))).
  { intros Hv. rewrite Hv in Hrun. rewrite Hrun. destruct b; reflexivity. }
  assert (Hinvalid : valid = false ->
            r = (Raise (AuthorizationError "Cannot join."),
                 after w s3 (lookups event))).
  { intros Hv. rewrite Hv in Hrun. exact Hrun. }
  repeat split.
  - exact Hvalid.
  - exact Hinvalid.
  - intros Hdenied. destruct valid eqn:Hv; [|reflexivity].
    rewrite (Hvalid eq_refl) in Hdenied. destruct b.
    + exfalso. revert Hdenied. eapply inject_not_denied. reflexivity.
    + discriminate.
  - intros Hv. rewrite (Hinvalid Hv). reflexivity.
  - intros Hok. destruct valid eqn:Hv; [reflexivity|].
    rewrite (Hinvalid eq_refl) in Hok. discriminate.
  - intros Hv. subst b. rewrite (Hvalid Hv). reflexivity.
  - intros Hno. rewrite Hinvalid; [reflexivity|].
    unfold valid. destruct Hno as [Hno|Hno].
    + unfold state. rewrite (member_state_truthy _ Hno).
      apply andb_false_r.
    + rewrite Hno. apply andb_false_r.
  - intros Hauth Hstate ->. rewrite Hvalid; [reflexivity|].
    unfold valid. rewrite Hauth, Hstate, pystr_eqb_refl.
    reflexivity.
Qed.

(** [B], invited to [r1], joins it. *)
Lemma join_iff_witness :
  (st_get_room_member (mem_store no_fault) "r1" (Some "B") mem_r1_invited
   = (Fired (PyList [member_row "r1" "B" "invite"]), mem_r1_invited))
  /\ fst (RoomMemberHandler.change_membership (mem_env no_fault) ev_join_B
            false w_r1_invited) = Ok tt.
Proof.
  split; [reflexivity|].
  refine (proj2 (proj1 (proj2 (proj2 (proj2
            (join_iff (mem_env no_fault) ev_join_B false w_r1_invited
               (Fired (PyList [mkRoom "r1" false (Some "A")])) mem_r1_invited
               (PyList [member_row "r1" "B" "invite"]) mem_r1_invited
               (PyList [member_row "r1" "B" "invite"]) mem_r1_invited
               (snd (st_store_room_member (mem_store no_fault) "B" "r1" JNull
                       (Some "join") mem_r1_invited))
               eq_refl eq_refl eq_refl eq_refl eq_refl)))) eq_refl) eq_refl).
Defined.

(** ** Rejected requests *)

(** A request refused with a [RoomError] has made the three lookups and
    no other store call. *)
Lemma change_membership_denied_world {S} (self : Env S) event b (w : World S)
    code msg :
  fst (RoomMemberHandler.change_membership self event b w)
    = Raise (RoomError code msg) ->
  let s1 := snd (st_get_room (store self) (e_room_id event) (w_store w)) in
  let s2 := snd (st_get_room_member (store self) (e_room_id event)
                   (e_auth_user_id event) s1) in
  let s3 := snd (st_get_room_member (store self) (e_room_id event)
                   (Some (e_user_id event)) s2) in
  snd (RoomMemberHandler.change_membership self event b w)
  = after w s3 (lookups event).
Proof.
  cbv zeta.
  destruct (st_get_room (store self) (e_room_id event) (w_store w))
    as [dr s1] eqn:Hr. cbn [snd].
  destruct (st_get_room_member (store self) (e_room_id event)
              (e_auth_user_id event) s1) as [[caller|f] s2] eqn:Hc; cbn [snd].
  2:{ rewrite (change_membership_caller_down self event b w _ _ _ _ Hr Hc).
      discriminate. }
  destruct (st_get_room_member (store self) (e_room_id event)
              (Some (e_user_id event)) s2) as [[target|f] s3] eqn:Ht; cbn [snd].
  2:{ rewrite (change_membership_target_down self event b w _ _ _ _ _ _ Hr Hc Ht).
      discriminate. }
  rewrite (change_membership_run self event b w _ _ _ _ _ _ Hr Hc Ht).
  destruct (transition_error _ _ _ _ _) as [e|] eqn:He; [reflexivity|].
  cbv zeta.
  destruct (fst (st_store_room_member _ _ _ _ _ _)) as [[]|f]; [|discriminate].
  destruct b; [|discriminate].
  destruct (transition_valid_template _ _ _ _ _ (e_auth_user_id event) He)
    as [body Hbody].
  intros Hdenied. exfalso. revert Hdenied.
  eapply inject_not_denied, Hbody.
Qed.

Lemma guarded_read {A} fault c (f : Mem -> A) (s : Mem) :
  snd (guarded fault c (fun s => (f s, s)) s) = s.
Proof. unfold guarded. destruct (fault c); reflexivity. Qed.

(** C7.  A request whose membership is none of [invite], [join] and
    [leave] (the enum value [knock] is one) is refused, once both
    membership lookups have answered, with the 500 error "Unknown
    membership ...".  And every request that [change_membership]
    refuses with a [RoomError] (403 or 500) has made the three lookups
    and no write; in the in-memory store, whatever calls fail, the
    store is then exactly as it was. *)
Theorem unknown_membership_and_rejections :
  (forall S (self : Env S) event b (w : World S) dr s1 caller s2 target s3,
     st_get_room (store self) (e_room_id event) (w_store w) = (dr, s1) ->
     st_get_room_member (store self) (e_room_id event)
       (e_auth_user_id event) s1 = (Fired caller, s2) ->
     st_get_room_member (store self) (e_room_id event)
       (Some (e_user_id event)) s2 = (Fired target, s3) ->
     e_membership event <> Some Membership.INVITE ->
     e_membership event <> Some Membership.JOIN ->
     e_membership event <> Some Membership.LEAVE ->
     RoomMemberHandler.change_membership self event b w
     = (Raise (InternalError
                 ("Unknown membership " ++ py_str (e_membership event))),
        after w s3 (lookups event)))
  /\ (forall S (self : Env S) event b (w : World S) code msg,
        fst (RoomMemberHandler.change_membership self event b w)
          = Raise (RoomError code msg) ->
        let s1 := snd (st_get_room (store self) (e_room_id event)
                         (w_store w)) in
        let s2 := snd (st_get_room_member (store self) (e_room_id event)
                         (e_auth_user_id event) s1) in
        let s3 := snd (st_get_room_member (store self) (e_room_id event)
                         (Some (e_user_id event)) s2) in
        snd (RoomMemberHandler.change_membership self event b w)
        = after w s3 (lookups event)
        /\ forallb is_lookup (lookups event) = true)
  /\ (forall fault event b (w : World Mem) code msg,
        fst (RoomMemberHandler.change_membership (mem_env fault) event b w)
          = Raise (RoomError code msg) ->
        w_store (snd (RoomMemberHandler.change_membership (mem_env fault)
                        event b w))
        = w_store w).
Proof.
  split; [|split].
  - intros S self event b w dr s1 caller s2 target s3 Hr Hc Ht Hi Hj Hl.
    rewrite (change_membership_run self event b w _ _ _ _ _ _ Hr Hc Ht).
    unfold transition_error.
    destruct (pystr_eqb (e_membership event) (Some "invite")) eqn:E1.
    { apply pystr_eqb_eq in E1. contradiction. }
    destruct (pystr_eqb (e_membership event) (Some "join")) eqn:E2.
    { apply pystr_eqb_eq in E2. contradiction. }
    destruct (pystr_eqb (e_membership event) (Some "leave")) eqn:E3.
    { apply pystr_eqb_eq in E3. contradiction. }
    reflexivity.
  - intros S self event b w code msg Hdenied. cbv zeta. split.
    + exact (change_membership_denied_world self event b w code msg Hdenied).
    + reflexivity.
  - intros fault event b w code msg Hdenied.
    rewrite (change_membership_denied_world _ event b w code msg Hdenied).
    rewrite w_store_after. cbn [mem_env store mem_store st_get_room
                                st_get_room_member].
    rewrite !guarded_read. reflexivity.
Qed.

(** [A] asks for the membership [knock] in [r1]. *)
Lemma unknown_membership_and_rejections_witness :
  (e_membership ev_knock_A <> Some Membership.INVITE
   /\ e_membership ev_knock_A <> Some Membership.JOIN
   /\ e_membership ev_knock_A <> Some Membership.LEAVE)
  /\ RoomMemberHandler.change_membership (mem_env no_fault) ev_knock_A true
       w_r1
     = (Raise (InternalError "Unknown membership knock"),
        after w_r1 mem_r1 (lookups ev_knock_A))
  /\ w_store (snd (RoomMemberHandler.change_membership (mem_env no_fault)
                     ev_knock_A true w_r1)) = mem_r1.
Proof.
  assert (Hne : e_membership ev_knock_A <> Some Membership.INVITE
                /\ e_membership ev_knock_A <> Some Membership.JOIN
                /\ e_membership ev_knock_A <> Some Membership.LEAVE).
  { repeat split; discriminate. }
  destruct Hne as (Hi & Hj & Hl).
  destruct unknown_membership_and_rejections as (Hunknown & _ & Hmem).
  pose proof (Hunknown Mem (mem_env no_fault) ev_knock_A true w_r1
                (Fired (PyList [mkRoom "r1" false (Some "A")])) mem_r1
                (PyList [member_row "r1" "A" "join"]) mem_r1
                (PyList [member_row "r1" "A" "join"]) mem_r1
                eq_refl eq_refl eq_refl Hi Hj Hl) as Hrun.
  split; [repeat split; assumption|].
  split; [exact Hrun|].
  apply (Hmem no_fault ev_knock_A true w_r1 500%Z "Unknown membership knock").
  rewrite Hrun. reflexivity.
Defined.

(** ** The notifier's message *)

(** C9.  For the states [invite], [join] and [leave] the notifier makes
    exactly one store call: it stores one message in the room, authored
    by ["_hs_"], with id ["m" ++ now] and the body of the fixed
    template; it is [send_message] run on an event without requester,
    so no membership lookup is made.  Any other state is refused with a
    500 error and no store call.  A valid membership change with the
    broadcast flag set makes that one call right after the membership
    write; without the flag it makes none. *)
Theorem notifier_sends_one_system_message :
  (forall S (self : Env S) room_id source target state (w : World S),
     let r := RoomMemberHandler._inject_membership_msg self room_id source
                target state w in
     let msg_id := Some ("m" ++ pretty (w_now w)) in
     let content body :=
       json_dumps self (JObj [("msgtype", JStr "sy.text");
                              ("body", JStr body)]) in
     let sent body :=
       (outcome_of (fst (st_store_message (store self) "_hs_" room_id msg_id
                           (content body) (w_store w))),
        after w (snd (st_store_message (store self) "_hs_" room_id msg_id
                        (content body) (w_store w)))
          [CStoreMessage "_hs_" room_id msg_id (content body)]) in
     (state = Some Membership.INVITE ->
      r = sent (py_str source ++ " invited " ++ target ++ " to the room."))
     /\ (state = Some Membership.JOIN ->
         r = sent (target ++ " joined the room."))
     /\ (state = Some Membership.LEAVE ->
         r = sent (target ++ " left the room."))
     /\ (state <> Some Membership.INVITE -> state <> Some Membership.JOIN ->
         state <> Some Membership.LEAVE ->
         r = (Raise (InternalError
                       ("Unknown membership value " ++ py_str state)), w))
     /\ (forall body, template state source target = Some body ->
         let event := create_event (MessageEvent_TYPE self) room_id "_hs_"
                        msg_id None
                        (JObj [("msgtype", JStr "sy.text");
                               ("body", JStr body)]) in
         e_auth_user_id event = None
         /\ r = MessageHandler.send_message self event w))
  /\ (forall S (self : Env S) event b (w : World S)
        dr s1 caller s2 target s3 s4 body dm s5,
        st_get_room (store self) (e_room_id event) (w_store w) = (dr, s1) ->
        st_get_room_member (store self) (e_room_id event)
          (e_auth_user_id event) s1 = (Fired caller, s2) ->
        st_get_room_member (store self) (e_room_id event)
          (Some (e_user_id event)) s2 = (Fired target, s3) ->
        transition_error (e_membership event) (e_auth_user_id event)
          (e_user_id event) (member_state_of caller) (member_state_of target)
          = None ->
        st_store_room_member (store self) (e_user_id event) (e_room_id event)
          (e_content event) (e_membership event) s3 = (Fired tt, s4) ->
        template (e_membership event) (e_auth_user_id event) (e_user_id event)
          = Some body ->
        st_store_message (store self) "_hs_" (e_room_id event)
          (Some ("m" ++ pretty (w_now w)))
          (json_dumps self (JObj [("msgtype", JStr "sy.text");
                                  ("body", JStr body)])) s4 = (dm, s5) ->
        RoomMemberHandler.change_membership self event b w
        = if b
          then (outcome_of dm,
                after w s5
                  (lookups event ++
                   [membership_write event;
                    notifier_message self (e_room_id event) (w_now w) body]))
          else (Ok tt, after w s4 (lookups event ++ [membership_write event]))).
Proof.
  split.
  - intros S self room_id source target state w r msg_id content sent.
    repeat split.
    + intros ->. apply (inject_known self). reflexivity.
    + intros ->. apply (inject_known self). reflexivity.
    + intros ->. apply (inject_known self). reflexivity.
    + intros Hi Hj Hl. apply inject_unknown. unfold template.
      destruct (pystr_eqb state (Some "invite")) eqn:E1.
      { apply pystr_eqb_eq in E1. contradiction. }
      destruct (pystr_eqb state (Some "join")) eqn:E2.
      { apply pystr_eqb_eq in E2. contradiction. }
      destruct (pystr_eqb state (Some "leave")) eqn:E3.
      { apply pystr_eqb_eq in E3. contradiction. }
      reflexivity.
    + unfold r. rewrite (inject_known self _ _ _ _ _ _ H).
      rewrite send_message_system by reflexivity. reflexivity.
  - intros S self event b w dr s1 caller s2 target s3 s4 body dm s5
           Hr Hc Ht Hvalid Hw Hbody Hsend.
    rewrite (change_membership_run self event b w _ _ _ _ _ _ Hr Hc Ht).
    rewrite Hvalid, Hw. cbv zeta. cbn [fst snd].
    destruct b; [|reflexivity].
    rewrite (inject_known self _ _ _ _ _ _ Hbody). cbv zeta.
    rewrite w_store_after, w_now_after, Hsend, after_after, <- app_assoc.
    reflexivity.
Qed.

(** [A] invites [B] with the broadcast flag set. *)
Lemma notifier_sends_one_system_message_witness :
  template (Some "invite") (Some "A") "B" = Some "A invited B to the room."
  /\ RoomMemberHandler.change_membership (mem_env no_fault) ev_invite_B true
       w_r1
     = (Ok tt,
        after w_r1
          (mkMem (mem_rooms mem_r1_invited) (mem_members mem_r1_invited)
                 [mkMessage "r1" "_hs_" (Some "m1400000000")
                    "{'msgtype': 'sy.text', 'body': 'A invited B to the room.'}"]
                 (mem_paths mem_r1_invited))
          [CGetRoom "r1"; CGetRoomMember "r1" (Some "A");
           CGetRoomMember "r1" (Some "B");
           CStoreRoomMember "B" "r1" JNull (Some "invite");
           CStoreMessage "_hs_" "r1" (Some "m1400000000")
             "{'msgtype': 'sy.text', 'body': 'A invited B to the room.'}"]).
Proof.
  split; [reflexivity|].
  exact (proj2 notifier_sends_one_system_message Mem (mem_env no_fault)
           ev_invite_B true w_r1
           (Fired (PyList [mkRoom "r1" false (Some "A")])) mem_r1
           (PyList [member_row "r1" "A" "join"]) mem_r1
           PyNone mem_r1 mem_r1_invited "A invited B to the room."
           (Fired tt) _
           eq_refl eq_refl eq_refl eq_refl eq_refl eq_refl eq_refl).
Defined.

(** ** Reading path data *)

Section path_data_facts.
Context {S : Type} (self : Env S).

Lemma get_room_path_data_run event path public_arg private_arg (w : World S)
    room rooms s1 member s2 :
  st_get_room (store self) (e_room_id event) (w_store w)
    = (Fired (PyList (room :: rooms)), s1) ->
  st_get_room_member (store self) (e_room_id event) (requester event) s1
    = (Fired member, s2) ->
  let public_rules := default (w_public_default w) public_arg in
  let private_rules :=
    if String.eqb (e_type event) (RoomTopicEvent_TYPE self)
    then [Membership.INVITE; Membership.JOIN]
    else default (w_private_default w) private_arg in
  let looked_up := [CGetRoom (e_room_id event);
                    CGetRoomMember (e_room_id event) (requester event)] in
  MessageHandler.get_room_path_data self event path public_arg private_arg w
  = if access_allowed (is_public room) public_rules private_rules
         (member_state_of member)
    then (outcome_of (fst (st_get_path_data (store self) path s2)),
          after w (snd (st_get_path_data (store self) path s2))
            (looked_up ++ [CGetPathData path]))
    else (Raise (AuthorizationError
                   (if is_public room
                    then "Member does not meet public room rules."
                    else "Member does not meet private room rules.")),
          after w s2 looked_up).
Proof.
  intros Hr Hm public_rules private_rules looked_up.
  unfold MessageHandler.get_room_path_data.
  unfold bind at 1. unfold default_arg at 1.
  unfold bind at 1. unfold default_arg at 1.
  unfold Store.get_room, Store.get_room_member, Store.get_path_data.
  rewrite bind_call, Hr. cbn [fst snd]. rewrite bind_yield.
  cbn [first]. fold (requester event).
  rewrite bind_call, w_store_after, Hm, after_after. cbn [fst snd app].
  rewrite bind_yield.
  change (match public_arg with
          | Some a => a
          | None => w_public_default w
          end) with public_rules.
  change (if String.eqb (e_type event) (RoomTopicEvent_TYPE self)
          then ["invite"; "join"]
          else match private_arg with
               | Some a => a
               | None => w_private_default w
               end) with private_rules.
  fold looked_up.
  assert (Hread :
    forall k : M S unit, k = ret tt ->
    bind k (fun _ => bind (call (CGetPathData path)
                             (st_get_path_data (store self) path))
                          (fun d => yield d)) (after w s2 looked_up)
    = (outcome_of (fst (st_get_path_data (store self) path s2)),
       after w (snd (st_get_path_data (store self) path s2))
         (looked_up ++ [CGetPathData path]))).
  { intros k ->. rewrite bind_ret, bind_call, w_store_after, after_after.
    apply run_yield. }
  unfold access_allowed.
  destruct (is_public room); cbn [andb negb].
  - destruct public_rules as [|rule rules]; cbn [truthy truthy_list].
    + apply Hread. reflexivity.
    + destruct (py_in (member_state_of member) (rule :: rules)); cbn [negb].
      * apply Hread. reflexivity.
      * rewrite bind_raise. reflexivity.
  - destruct private_rules as [|rule rules]; cbn [truthy truthy_list].
    + apply Hread. reflexivity.
    + destruct (py_in (member_state_of member) (rule :: rules)); cbn [negb].
      * apply Hread. reflexivity.
      * rewrite bind_raise. reflexivity.
Qed.
End path_data_facts.

(** A requester without a membership record has the null state, which
    no non-empty rule set admits. *)
Lemma no_record_denied (public : bool)
    (public_rules private_rules : list string) :
  (if public then public_rules else private_rules) <> [] ->
  member_state_of PyNone = None
  /\ access_allowed public public_rules private_rules None = false.
Proof.
  intros Hrules. split; [reflexivity|]. unfold access_allowed.
  destruct (if public then public_rules else private_rules) as [|rule rules];
    [contradiction|].
  clear Hrules. generalize (rule :: rules). intros l.
  induction l as [|y l IH]; [reflexivity|exact IH].
Qed.

(** Whatever happens, [get_room_path_data] leaves a world that differs
    from the one it started in by store calls only. *)
Lemma get_room_path_data_world {S} (self : Env S) event path public_arg
    private_arg (w : World S) :
  exists s calls,
    snd (MessageHandler.get_room_path_data self event path public_arg
           private_arg w) = after w s calls.
Proof.
  destruct (st_get_room (store self) (e_room_id event) (w_store w))
    as [[room|f] s1] eqn:Hr.
  2:{ exists s1, [CGetRoom (e_room_id event)].
      unfold MessageHandler.get_room_path_data.
      unfold bind at 1. unfold default_arg at 1.
      unfold bind at 1. unfold default_arg at 1.
      unfold Store.get_room. rewrite bind_call, Hr. reflexivity. }
  destruct (first room) as [row|] eqn:Hfirst.
  2:{ exists s1, [CGetRoom (e_room_id event)].
      unfold MessageHandler.get_room_path_data.
      unfold bind at 1. unfold default_arg at 1.
      unfold bind at 1. unfold default_arg at 1.
      unfold Store.get_room. rewrite bind_call, Hr. cbn [fst snd].
      rewrite bind_yield, Hfirst. reflexivity. }
  destruct room as [|[|row' rooms]]; try discriminate.
  destruct (st_get_room_member (store self) (e_room_id event)
              (requester event) s1) as [[member|f] s2] eqn:Hm.
  2:{ exists s2, [CGetRoom (e_room_id event);
                  CGetRoomMember (e_room_id event) (requester event)].
      unfold MessageHandler.get_room_path_data.
      unfold bind at 1. unfold default_arg at 1.
      unfold bind at 1. unfold default_arg at 1.
      unfold Store.get_room, Store.get_room_member.
      rewrite bind_call, Hr. cbn [fst snd]. rewrite bind_yield.
      cbn [first]. fold (requester event).
      rewrite bind_call, w_store_after, Hm, after_after. reflexivity. }
  rewrite (get_room_path_data_run self event path public_arg private_arg w
             _ _ _ _ _ Hr Hm).
  cbv zeta. destruct (access_allowed _ _ _ _); eauto.
Qed.

(** C5.  With the room found and the requester's membership looked up,
    [get_room_path_data] reads the path data exactly when the access
    decision of the specification allows it, and refuses with a 403
    error otherwise.  The rule sets in force are the arguments, or the
    function's default lists when omitted; for a topic event the
    private rules are [invite] and [join], whatever was passed.  The
    default lists themselves are the same after every call, so from the
    world of a freshly loaded module they stay [[]] and [["join"]]. *)
Theorem path_data_access :
  (forall S (self : Env S) event path public_arg private_arg (w : World S)
     room rooms s1 member s2,
     st_get_room (store self) (e_room_id event) (w_store w)
       = (Fired (PyList (room :: rooms)), s1) ->
     st_get_room_member (store self) (e_room_id event) (requester event) s1
       = (Fired member, s2) ->
     let r := MessageHandler.get_room_path_data self event path public_arg
                private_arg w in
     let public_rules := default (w_public_default w) public_arg in
     let private_rules :=
       if String.eqb (e_type event) (RoomTopicEvent_TYPE self)
       then [Membership.INVITE; Membership.JOIN]
       else default (w_private_default w) private_arg in
     let state := member_state_of member in
     let looked_up := [CGetRoom (e_room_id event);
                       CGetRoomMember (e_room_id event) (requester event)] in
     (access_allowed (is_public room) public_rules private_rules state = true ->
      r = (outcome_of (fst (st_get_path_data (store self) path s2)),
           after w (snd (st_get_path_data (store self) path s2))
             (looked_up ++ [CGetPathData path])))
     /\ (access_allowed (is_public room) public_rules private_rules state
         = false ->
         r = (Raise (AuthorizationError
                       (if is_public room
                        then "Member does not meet public room rules."
                        else "Member does not meet private room rules.")),
              after w s2 looked_up)))
  /\ (forall S (self : Env S) event path public_arg private_arg (w : World S),
        let r := MessageHandler.get_room_path_data self event path public_arg
                   private_arg w in
        w_public_default (snd r) = w_public_default w
        /\ w_private_default (snd r) = w_private_default w)
  /\ (forall S (s : S) now,
        w_public_default (initial_world s now) = []
        /\ w_private_default (initial_world s now) = [Membership.JOIN]).
Proof.
  split; [|split].
  - intros S self event path public_arg private_arg w room rooms s1 member s2
           Hr Hm r public_rules private_rules state looked_up.
    assert (Hrun := get_room_path_data_run self event path public_arg
                      private_arg w _ _ _ _ _ Hr Hm).
    cbv zeta in Hrun. fold r public_rules private_rules state looked_up in Hrun.
    split; intros Hallowed; rewrite Hallowed in Hrun.
    + exact Hrun.
    + exact Hrun.
  - intros S self event path public_arg private_arg w r.
    destruct (get_room_path_data_world self event path public_arg
                private_arg w) as (s & calls & Hw).
    unfold r. rewrite Hw. split; reflexivity.
  - intros S s now. split; reflexivity.
Qed.

(** [B], invited to the private room [r1], reads its topic with the
    default rules; asking for path data with another event type right
    after, still with the default rules, [B] is refused. *)
Lemma path_data_access_witness :
  (access_allowed false [] ["invite"; "join"] (Some "invite") = true
   /\ access_allowed false [] ["join"] (Some "invite") = false)
  /\ MessageHandler.get_room_path_data (mem_env no_fault) ev_topic_B "topic"
       None None w_r1_invited
     = (Ok (PyList ["'hello'"]),
        after w_r1_invited mem_r1_invited
          [CGetRoom "r1"; CGetRoomMember "r1" (Some "B"); CGetPathData "topic"])
  /\ fst (MessageHandler.get_room_path_data (mem_env no_fault) ev_path_B
            "topic" None None
            (snd (MessageHandler.get_room_path_data (mem_env no_fault)
                    ev_topic_B "topic" None None w_r1_invited)))
     = Raise (AuthorizationError "Member does not meet private room rules.").
Proof.
  split; [split; reflexivity|].
  pose proof (proj1 (proj1 path_data_access Mem (mem_env no_fault) ev_topic_B
                       "topic" None None w_r1_invited
                       (mkRoom "r1" false (Some "A")) [] mem_r1_invited
                       (PyList [member_row "r1" "B" "invite"]) mem_r1_invited
                       eq_refl eq_refl) eq_refl) as Hfirst.
  split; [exact Hfirst|].
  rewrite Hfirst.
  exact (f_equal fst
           (proj2 (proj1 path_data_access Mem (mem_env no_fault) ev_path_B
                     "topic" None None
                     (after w_r1_invited mem_r1_invited
                        [CGetRoom "r1"; CGetRoomMember "r1" (Some "B");
                         CGetPathData "topic"])
                     (mkRoom "r1" false (Some "A")) [] mem_r1_invited
                     (PyList [member_row "r1" "B" "invite"]) mem_r1_invited
                     eq_refl eq_refl) eq_refl)).
Defined.

(** ** Sending a message *)

Section gate_facts.
Context {S : Type} (self : Env S).

(** The membership gate shared by the handlers. *)
Lemma get_joined_or_throw_run user_id room_id (w : World S) member s1 :
  st_get_room_member (store self) room_id user_id (w_store w)
    = (Fired member, s1) ->
  _get_joined_or_throw self user_id room_id w
  = (if joined member then Ok member
     else Raise (AuthorizationError "Haven't joined room.'"),
     after w s1 [CGetRoomMember room_id user_id]).
Proof.
  intros Hm. unfold _get_joined_or_throw, Store.get_room_member.
  rewrite bind_call, Hm. cbn [fst snd]. rewrite bind_yield.
  rewrite joined_state. unfold inJoin.
  destruct (truthy member) eqn:Htruthy; cbn [negb orb].
  - destruct (pystr_eqb (member_state_of member) (Some "join")); reflexivity.
  - rewrite (member_state_truthy _ Htruthy). reflexivity.
Qed.

Lemma get_joined_or_throw_down user_id room_id (w : World S) f s1 :
  st_get_room_member (store self) room_id user_id (w_store w)
    = (Failed f, s1) ->
  _get_joined_or_throw self user_id room_id w
  = (Raise (StoreFault f), after w s1 [CGetRoomMember room_id user_id]).
Proof.
  intros Hm. unfold _get_joined_or_throw, Store.get_room_member.
  rewrite bind_call, Hm. reflexivity.
Qed.
End gate_facts.

(** C6.  With a requester, a message under another user's id is
    refused with "Must send messages as yourself." before any store
    call; a requester who is not joined is refused with "Haven't joined
    room.'"; otherwise the message is stored.  Without a requester
    neither check is made and the message goes to the store. *)
Theorem send_message_checks {S} (self : Env S) event (w : World S) :
  let r := MessageHandler.send_message self event w in
  let stored := CStoreMessage (e_user_id event) (e_room_id event)
                  (e_msg_id event) (json_dumps self (e_content event)) in
  let store_from s :=
    st_store_message (store self) (e_user_id event) (e_room_id event)
      (e_msg_id event) (json_dumps self (e_content event)) s in
  let lookup := CGetRoomMember (e_room_id event) (e_auth_user_id event) in
  (truthy (e_auth_user_id event) = true ->
   e_auth_user_id event <> Some (e_user_id event) ->
   r = (Raise (AuthorizationError "Must send messages as yourself."), w))
  /\ (forall member s1,
        truthy (e_auth_user_id event) = true ->
        e_auth_user_id event = Some (e_user_id event) ->
        st_get_room_member (store self) (e_room_id event)
          (e_auth_user_id event) (w_store w) = (Fired member, s1) ->
        (inJoin (member_state_of member) = false ->
         r = (Raise (AuthorizationError "Haven't joined room.'"),
              after w s1 [lookup]))
        /\ (inJoin (member_state_of member) = true ->
            r = (outcome_of (fst (store_from s1)),
                 after w (snd (store_from s1)) [lookup; stored])))
  /\ (truthy (e_auth_user_id event) = false ->
      r = (outcome_of (fst (store_from (w_store w))),
           after w (snd (store_from (w_store w))) [stored])).
Proof.
  intros r stored store_from lookup. split; [|split].
  - intros Hauth Hne. unfold r, MessageHandler.send_message.
    rewrite Hauth.
    destruct (pystr_eqb (Some (e_user_id event)) (e_auth_user_id event)) eqn:E.
    { apply pystr_eqb_eq in E. congruence. }
    reflexivity.
  - intros member s1 Hauth Heq Hm.
    assert (Hrun : r = bind (if joined member then ret tt
                             else raise (AuthorizationError "Haven't joined room.'"))
                        (fun _ => bind (Store.store_message self (e_user_id event)
                                          (e_room_id event) (e_msg_id event)
                                          (json_dumps self (e_content event)))
                                       (fun d => yield d))
                        (after w s1 [lookup])).
    { unfold r, MessageHandler.send_message. rewrite Hauth.
      rewrite Heq at 1. rewrite pystr_eqb_refl. cbn [negb].
      unfold bind at 1. unfold bind at 1.
      rewrite (get_joined_or_throw_run self _ _ _ _ _ Hm).
      destruct (joined member); reflexivity. }
    rewrite joined_state in Hrun.
    split; intros Hjoined; rewrite Hjoined in Hrun; rewrite Hrun.
    + reflexivity.
    + rewrite bind_ret. unfold Store.store_message.
      rewrite bind_call, w_store_after, after_after. apply run_yield.
  - intros Hauth. unfold r. rewrite send_message_system by exact Hauth.
    reflexivity.
Qed.

(** [A], joined in [r1], sends a message as [A]; as [B], [A] is
    refused. *)
Lemma send_message_checks_witness :
  (truthy (e_auth_user_id ev_message_as_B) = true
   /\ e_auth_user_id ev_message_as_B <> Some (e_user_id ev_message_as_B))
  /\ MessageHandler.send_message (mem_env no_fault) ev_message_as_B w_r1
     = (Raise (AuthorizationError "Must send messages as yourself."), w_r1)
  /\ MessageHandler.send_message (mem_env no_fault) ev_message_A w_r1
     = (Ok tt,
        after w_r1
          (mkMem (mem_rooms mem_r1) (mem_members mem_r1)
                 [mkMessage "r1" "A" (Some "m1") "'hi'"] (mem_paths mem_r1))
          [CGetRoomMember "r1" (Some "A");
           CStoreMessage "A" "r1" (Some "m1") "'hi'"]).
Proof.
  assert (Hne : e_auth_user_id ev_message_as_B
                <> Some (e_user_id ev_message_as_B)) by discriminate.
  split; [split; [reflexivity|exact Hne]|].
  split.
  - exact (proj1 (send_message_checks (mem_env no_fault) ev_message_as_B w_r1)
             eq_refl Hne).
  - exact (proj2 (proj1 (proj2 (send_message_checks (mem_env no_fault)
                                  ev_message_A w_r1))
                    (PyList [member_row "r1" "A" "join"]) mem_r1
                    eq_refl eq_refl eq_refl) eq_refl).
Defined.

(** ** Creating a room *)

Lemma create_room_run {S} (self : Env S) user_id room_id cfg v (w : World S) :
  cfg !! "visibility" = Some v ->
  let sr := st_store_room (store self) room_id user_id
              (json_eq_str v "public") (w_store w) in
  RoomCreationHandler.create_room self user_id room_id (Some cfg) w
  = (match fst sr with
     | Fired new_room_id =>
       if truthy new_room_id then Ok new_room_id
       else Raise (ConflictError "Room ID in use.")
     | Failed StoreException => Raise (InternalError "Unable to create room.")
     | Failed f => Raise (StoreFault f)
     end,
     after w (snd sr) [CStoreRoom room_id user_id (json_eq_str v "public")]).
Proof.
  intros Hv. cbv zeta.
  unfold RoomCreationHandler.create_room, try_except_StoreException.
  unfold subscript. rewrite Hv. rewrite bind_ret.
  unfold Store.store_room. rewrite bind_call, bind_yield.
  destruct (fst (st_store_room _ _ _ _ _)) as [new_room_id|[|descr]].
  - destruct (truthy new_room_id); reflexivity.
  - reflexivity.
  - reflexivity.
Qed.

(** C8.  Once the store has been called (the configuration has a
    visibility), [create_room] raises the 409 error "Room ID in use."
    exactly when the store's answer is [None] or empty, raises the 500
    error "Unable to create room." exactly when the store fails with
    its [StoreException], and returns the store's answer when that is a
    non-empty id.  Hence, over a store that rejects duplicate ids (the
    in-memory store), creating a room under a free, non-empty id
    returns that id, and creating it again raises the 409 error. *)
Theorem create_room_outcomes :
  (forall S (self : Env S) user_id room_id cfg v (w : World S),
     cfg !! "visibility" = Some v ->
     let sr := st_store_room (store self) room_id user_id
                 (json_eq_str v "public") (w_store w) in
     let r := RoomCreationHandler.create_room self user_id room_id (Some cfg)
                w in
     (fst r = Raise (ConflictError "Room ID in use.")
      <-> exists answer, fst sr = Fired answer /\ truthy answer = false)
     /\ (fst r = Raise (InternalError "Unable to create room.")
         <-> fst sr = Failed StoreException)
     /\ (forall new_room_id,
           fst sr = Fired new_room_id -> truthy new_room_id = true ->
           fst r = Ok new_room_id)
     /\ snd r = after w (snd sr)
                  [CStoreRoom room_id user_id (json_eq_str v "public")])
  /\ (forall (w : World Mem) id creator1 creator2 cfg1 cfg2 v1 v2,
        id <> "" ->
        mem_rooms (w_store w) !! id = None ->
        cfg1 !! "visibility" = Some v1 ->
        cfg2 !! "visibility" = Some v2 ->
        let r1 := RoomCreationHandler.create_room (mem_env no_fault) creator1
                    (Some id) (Some cfg1) w in
        let r2 := RoomCreationHandler.create_room (mem_env no_fault) creator2
                    (Some id) (Some cfg2) (snd r1) in
        fst r1 = Ok (Some id)
        /\ fst r2 = Raise (ConflictError "Room ID in use.")).
Proof.
  split.
  - intros S self user_id room_id cfg v w Hv sr r.
    assert (Hrun := create_room_run self user_id room_id cfg v w Hv).
    cbv zeta in Hrun. fold sr r in Hrun.
    rewrite Hrun. cbn [fst snd].
    destruct (fst sr) as [answer|[|descr]];
      [destruct (truthy answer) eqn:Hanswer|..];
      repeat split;
      repeat match goal with
             | H : exists _, _ |- _ => destruct H as (? & ? & ?)
             | |- _ -> _ => intro
             | |- forall _, _ => intro
             end;
      try discriminate; try congruence; eauto.
  - intros w id creator1 creator2 cfg1 cfg2 v1 v2 Hid Hfree Hv1 Hv2 r1 r2.
    assert (Hrun1 := create_room_run (mem_env no_fault) creator1 (Some id)
                       cfg1 v1 w Hv1).
    cbv zeta in Hrun1. fold r1 in Hrun1.
    cbn [mem_env store mem_store st_store_room guarded no_fault] in Hrun1.
    rewrite Hfree in Hrun1. cbn [fst snd] in Hrun1.
    assert (Htruthy : truthy (Some id) = true).
    { cbn [truthy truthy_option]. unfold truthy, truthy_string.
      destruct (String.eqb_spec id ""); [contradiction|reflexivity]. }
    rewrite Htruthy in Hrun1.
    assert (Hrun2 := create_room_run (mem_env no_fault) creator2 (Some id)
                       cfg2 v2 (snd r1) Hv2).
    cbv zeta in Hrun2. fold r2 in Hrun2.
    rewrite Hrun1 in Hrun2 |- *.
    cbn [mem_env store mem_store st_store_room guarded no_fault
         snd fst w_store after mem_rooms] in Hrun2.
    rewrite lookup_insert_eq in Hrun2.
    rewrite Hrun2. split; reflexivity.
Qed.

(** The room ["!abc"] is created twice in a store without rooms. *)
Lemma create_room_outcomes_witness :
  (cfg_private !! "visibility" = Some (JStr "private")
   /\ mem_rooms mem_empty !! "!abc" = None)
  /\ fst (RoomCreationHandler.create_room (mem_env no_fault) (Some "u1")
            (Some "!abc") (Some cfg_private) (initial_world mem_empty 0))
     = Ok (Some "!abc")
  /\ fst (RoomCreationHandler.create_room (mem_env no_fault) (Some "u1")
            (Some "!abc") (Some cfg_private)
            (snd (RoomCreationHandler.create_room (mem_env no_fault)
                    (Some "u1") (Some "!abc") (Some cfg_private)
                    (initial_world mem_empty 0))))
     = Raise (ConflictError "Room ID in use.").
Proof.
  assert (Hid : "!abc" <> "") by discriminate.
  split; [split; reflexivity|].
  exact (proj2 create_room_outcomes (initial_world mem_empty 0) "!abc"
           (Some "u1") (Some "u1") cfg_private cfg_private
           (JStr "private") (JStr "private") Hid eq_refl eq_refl eq_refl).
Defined.

(** ** Retrieving a room member *)

(** C10.  With a requester, [get_room_member] first requires the
    requester to be joined in the room and refuses with the 403 error
    "Haven't joined room.'" otherwise.  Past that gate (or without a
    requester) it looks up the target and returns the first row of the
    store's answer; when the store has no row it returns the store's
    answer as it is, [None] for [None] (and the empty list for an empty
    list), and never an error. *)
Theorem get_room_member_gate {S} (self : Env S) event (w : World S) :
  let r := RoomMemberHandler.get_room_member self event w in
  let gate := CGetRoomMember (e_room_id event) (e_auth_user_id event) in
  let query := CGetRoomMember (e_room_id event) (Some (e_user_id event)) in
  let found (member : pyres RoomMember) : Result (RoomMember + pyres RoomMember) :=
    match member with
    | PyList (m0 :: _) => Ok (inl m0)
    | PyList [] => Ok (inr (PyList []))
    | PyNone => Ok (inr PyNone)
    end in
  (forall requester_rows s1,
     truthy (e_auth_user_id event) = true ->
     st_get_room_member (store self) (e_room_id event) (e_auth_user_id event)
       (w_store w) = (Fired requester_rows, s1) ->
     (inJoin (member_state_of requester_rows) = false ->
      r = (Raise (AuthorizationError "Haven't joined room.'"),
           after w s1 [gate]))
     /\ (inJoin (member_state_of requester_rows) = true ->
         forall member s2,
           st_get_room_member (store self) (e_room_id event)
             (Some (e_user_id event)) s1 = (Fired member, s2) ->
           r = (found member, after w s2 [gate; query])))
  /\ (truthy (e_auth_user_id event) = false ->
      forall member s2,
        st_get_room_member (store self) (e_room_id event)
          (Some (e_user_id event)) (w_store w) = (Fired member, s2) ->
        r = (found member, after w s2 [query])).
Proof.
  intros r gate query found.
  assert (Hquery : forall (w1 : World S) s1 calls member s2,
            w1 = after w s1 calls ->
            st_get_room_member (store self) (e_room_id event)
              (Some (e_user_id event)) s1 = (Fired member, s2) ->
            bind (Store.get_room_member self (e_room_id event)
                    (Some (e_user_id event)))
                 (fun d => bind (yield d) (fun member =>
                    match first member with
                    | Some m0 => ret (inl m0)
                    | None => ret (inr member)
                    end)) w1
            = (found member, after w s2 (calls ++ [query]))).
  { intros w1 s1 calls member s2 -> Hm. unfold Store.get_room_member.
    rewrite bind_call, w_store_after, Hm, after_after. cbn [fst snd].
    rewrite bind_yield. destruct member as [|[|m0 rest]]; reflexivity. }
  split.
  - intros requester_rows s1 Hauth Hgate.
    assert (Hrun : r = bind (if joined requester_rows then ret tt
                             else raise (AuthorizationError "Haven't joined room.'"))
                        (fun _ => bind (Store.get_room_member self
                                          (e_room_id event)
                                          (Some (e_user_id event)))
                                    (fun d => bind (yield d) (fun member =>
                                       match first member with
                                       | Some m0 => ret (inl m0)
                                       | None => ret (inr member)
                                       end)))
                        (after w s1 [gate])).
    { unfold r, RoomMemberHandler.get_room_member. rewrite Hauth.
      unfold bind at 1. unfold bind at 1.
      rewrite (get_joined_or_throw_run self _ _ _ _ _ Hgate).
      destruct (joined requester_rows); reflexivity. }
    rewrite joined_state in Hrun.
    split; intros Hjoined; rewrite Hjoined in Hrun.
    + rewrite Hrun. reflexivity.
    + intros member s2 Hm. rewrite Hrun, bind_ret.
      apply (Hquery _ s1 [gate] member s2 eq_refl Hm).
  - intros Hauth member s2 Hm.
    unfold r, RoomMemberHandler.get_room_member. rewrite Hauth, bind_ret.
    apply (Hquery w (w_store w) [] member s2); [|exact Hm].
    symmetry. apply after_nil.
Qed.

(** [A], joined in [r1], asks for [B]: the invited [B] is returned,
    and [None] while [B] has no record. *)
Lemma get_room_member_gate_witness :
  (truthy (e_auth_user_id ev_member_B) = true
   /\ inJoin (member_state_of (PyList [member_row "r1" "A" "join"])) = true)
  /\ RoomMemberHandler.get_room_member (mem_env no_fault) ev_member_B
       w_r1_invited
     = (Ok (inl (member_row "r1" "B" "invite")),
        after w_r1_invited mem_r1_invited
          [CGetRoomMember "r1" (Some "A"); CGetRoomMember "r1" (Some "B")])
  /\ RoomMemberHandler.get_room_member (mem_env no_fault) ev_member_B w_r1
     = (Ok (inr PyNone),
        after w_r1 mem_r1
          [CGetRoomMember "r1" (Some "A"); CGetRoomMember "r1" (Some "B")]).
Proof.
  split; [split; reflexivity|].
  split.
  - exact (proj2 (proj1 (get_room_member_gate (mem_env no_fault) ev_member_B
                           w_r1_invited)
                    (PyList [member_row "r1" "A" "join"]) mem_r1_invited
                    eq_refl eq_refl) eq_refl
             (PyList [member_row "r1" "B" "invite"]) mem_r1_invited eq_refl).
  - exact (proj2 (proj1 (get_room_member_gate (mem_env no_fault) ev_member_B
                           w_r1)
                    (PyList [member_row "r1" "A" "join"]) mem_r1
                    eq_refl eq_refl) eq_refl
             PyNone mem_r1 eq_refl).
Defined.

(** An anonymous request reads path data of the public room [r2]: the
    default public rules are empty. *)
Example anonymous_read_public_room :
  fst (MessageHandler.get_room_path_data (mem_env no_fault) ev_path_anonymous
         "topic" None None w_r1)
  = Ok (PyList ["'hello'"]).
Proof. vm_compute. reflexivity. Qed.

(** [A] invites [B], [B] joins, and [A]'s second invitation of [B] is
    refused. *)
Example invite_join_invite :
  let env := mem_env no_fault in
  let r1 := RoomMemberHandler.change_membership env ev_invite_B true w_r1 in
  let r2 := RoomMemberHandler.change_membership env ev_join_B true (snd r1) in
  let r3 := RoomMemberHandler.change_membership env ev_invite_B true (snd r2) in
  fst r1 = Ok tt
  /\ fst r2 = Ok tt
  /\ mem_members (w_store (snd r2)) !! ("r1", Some "B")
     = Some (member_row "r1" "B" "join")
  /\ fst r3 = Raise (AuthorizationError "Cannot invite.").
Proof. vm_compute. repeat split; reflexivity. Qed.

(** * The remaining handlers and paths *)

(** ** The membership gate *)

Section gated_facts.
Context {S : Type} (self : Env S).

(** A handler body [k] behind the gate "if there is a requester, the
    requester must be joined". *)
Lemma gated_run {A} (k : M S A) event (w : World S) :
  bind (if truthy (e_auth_user_id event)
        then bind (_get_joined_or_throw self (e_auth_user_id event)
                     (e_room_id event)) (fun _ => ret tt)
        else ret tt) (fun _ => k) w
  = if truthy (e_auth_user_id event) then
      let lr := st_get_room_member (store self) (e_room_id event)
                  (e_auth_user_id event) (w_store w) in
      let w1 := after w (snd lr)
                  [CGetRoomMember (e_room_id event) (e_auth_user_id event)] in
      match fst lr with
      | Failed f => (Raise (StoreFault f), w1)
      | Fired rows =>
        if inJoin (member_state_of rows) then k w1
        else (Raise (AuthorizationError "Haven't joined room.'"), w1)
      end
    else k w.
Proof.
  destruct (truthy (e_auth_user_id event)); [|reflexivity].
  cbv zeta.
  destruct (st_get_room_member (store self) (e_room_id event)
              (e_auth_user_id event) (w_store w)) as [[rows|f] s1] eqn:Hm.
  - unfold bind at 1. unfold bind at 1.
    rewrite (get_joined_or_throw_run self _ _ _ _ _ Hm).
    rewrite joined_state. cbn [fst snd].
    destruct (inJoin (member_state_of rows)); reflexivity.
  - unfold bind at 1. unfold bind at 1.
    rewrite (get_joined_or_throw_down self _ _ _ _ _ Hm). reflexivity.
Qed.
End gated_facts.

(** ** Retrieving a message *)

(** X1.  With a requester, [get_message] refuses a requester who is
    not joined with the 403 error "Haven't joined room.'" and does not
    query the message.  Past the gate (or without a requester) it
    returns the first row of the store's answer and [None] when the
    answer is [None] or the empty list; a missing message is no error. *)
Theorem get_message_gate {S} (self : Env S) event (w : World S) :
  let r := MessageHandler.get_message self event w in
  let gate := CGetRoomMember (e_room_id event) (e_auth_user_id event) in
  let query := CGetMessage (e_room_id event) (e_msg_id event)
                 (e_user_id event) in
  let found (results : pyres Message) : option Message :=
    match results with
    | PyList (m0 :: _) => Some m0
    | PyList [] => None
    | PyNone => None
    end in
  (forall rows s1,
     truthy (e_auth_user_id event) = true ->
     st_get_room_member (store self) (e_room_id event) (e_auth_user_id event)
       (w_store w) = (Fired rows, s1) ->
     (inJoin (member_state_of rows) = false ->
      r = (Raise (AuthorizationError "Haven't joined room.'"),
           after w s1 [gate]))
     /\ (inJoin (member_state_of rows) = true ->
         forall results s2,
           st_get_message (store self) (e_room_id event) (e_msg_id event)
             (e_user_id event) s1 = (Fired results, s2) ->
           r = (Ok (found results), after w s2 [gate; query])))
  /\ (truthy (e_auth_user_id event) = false ->
      forall results s2,
        st_get_message (store self) (e_room_id event) (e_msg_id event)
          (e_user_id event) (w_store w) = (Fired results, s2) ->
        r = (Ok (found results), after w s2 [query])).
Proof.
  intros r gate query found.
  assert (Hquery : forall s1 calls results s2,
            st_get_message (store self) (e_room_id event) (e_msg_id event)
              (e_user_id event) s1 = (Fired results, s2) ->
            bind (Store.get_message self (e_room_id event) (e_msg_id event)
                    (e_user_id event))
                 (fun d => bind (yield d) (fun results =>
                    if truthy results then ret (first results) else ret None))
                 (after w s1 calls)
            = (Ok (found results), after w s2 (calls ++ [query]))).
  { intros s1 calls results s2 Hq. unfold Store.get_message.
    rewrite bind_call, w_store_after, Hq, after_after. cbn [fst snd].
    rewrite bind_yield. destruct results as [|[|m0 rest]]; reflexivity. }
  assert (Hrun := gated_run self
            (bind (Store.get_message self (e_room_id event) (e_msg_id event)
                     (e_user_id event))
                  (fun d => bind (yield d) (fun results =>
                     if truthy results then ret (first results) else ret None)))
            event w).
  match type of Hrun with _ = ?rhs => change (r = rhs) in Hrun end.
  split.
  - intros rows s1 Hauth Hgate. rewrite Hauth, Hgate in Hrun.
    cbv zeta in Hrun. cbn [fst snd] in Hrun.
    split; intros Hjoined; rewrite Hjoined in Hrun.
    + exact Hrun.
    + intros results s2 Hq. rewrite Hrun.
      apply (Hquery s1 [gate] results s2 Hq).
  - intros Hauth results s2 Hq. rewrite Hauth in Hrun. rewrite Hrun.
    rewrite <- (after_nil w) at 1. apply (Hquery _ [] results s2 Hq).
Qed.

(** [A], joined in [r1], gets the message [m1]; [B], who is not in
    [r1], is refused. *)
Lemma get_message_gate_witness :
  (truthy (e_auth_user_id ev_message_A) = true
   /\ inJoin (member_state_of (PyList [member_row "r1" "A" "join"])) = true
   /\ inJoin (member_state_of (@PyNone RoomMember)) = false)
  /\ MessageHandler.get_message (mem_env no_fault) ev_message_A w_r1_msg
     = (Ok (Some (mkMessage "r1" "A" (Some "m1") "'hi'")),
        after w_r1_msg mem_r1_msg
          [CGetRoomMember "r1" (Some "A");
           CGetMessage "r1" (Some "m1") "A"])
  /\ MessageHandler.get_message (mem_env no_fault) ev_message_by_B w_r1_msg
     = (Raise (AuthorizationError "Haven't joined room.'"),
        after w_r1_msg mem_r1_msg [CGetRoomMember "r1" (Some "B")]).
Proof.
  split; [repeat split; reflexivity|].
  split.
  - exact (proj2 (proj1 (get_message_gate (mem_env no_fault) ev_message_A
                           w_r1_msg)
                    (PyList [member_row "r1" "A" "join"]) mem_r1_msg
                    eq_refl eq_refl) eq_refl
             (PyList [mkMessage "r1" "A" (Some "m1") "'hi'"]) mem_r1_msg
             eq_refl).
  - exact (proj1 (proj1 (get_message_gate (mem_env no_fault) ev_message_by_B
                           w_r1_msg)
                    PyNone mem_r1_msg eq_refl eq_refl) eq_refl).
Defined.

(** ** Storing path data *)

(** X2.  [store_room_path_data] stores [json.dumps(event.content)]
    under the path, in the event's room.  A requester who is not joined
    is refused with the 403 error "Haven't joined room.'" and nothing
    is stored; a joined requester and a request without requester both
    reach the store, and the outcome is the store's. *)
Theorem store_room_path_data_gate {S} (self : Env S) event path
    (w : World S) :
  let r := MessageHandler.store_room_path_data self event path w in
  let gate := CGetRoomMember (e_room_id event) (e_auth_user_id event) in
  let stored := CStorePathData (e_room_id event) path
                  (json_dumps self (e_content event)) in
  let store_from s :=
    st_store_path_data (store self) (e_room_id event) path
      (json_dumps self (e_content event)) s in
  (forall rows s1,
     truthy (e_auth_user_id event) = true ->
     st_get_room_member (store self) (e_room_id event) (e_auth_user_id event)
       (w_store w) = (Fired rows, s1) ->
     (inJoin (member_state_of rows) = false ->
      r = (Raise (AuthorizationError "Haven't joined room.'"),
           after w s1 [gate]))
     /\ (inJoin (member_state_of rows) = true ->
         r = (outcome_of (fst (store_from s1)),
              after w (snd (store_from s1)) [gate; stored])))
  /\ (truthy (e_auth_user_id event) = false ->
      r = (outcome_of (fst (store_from (w_store w))),
           after w (snd (store_from (w_store w))) [stored])).
Proof.
  intros r gate stored store_from.
  assert (Hstore : forall s1 calls,
            bind (Store.store_path_data self (e_room_id event) path
                    (json_dumps self (e_content event)))
                 (fun d => yield d) (after w s1 calls)
            = (outcome_of (fst (store_from s1)),
               after w (snd (store_from s1)) (calls ++ [stored]))).
  { intros s1 calls. unfold Store.store_path_data.
    rewrite bind_call, w_store_after, after_after. apply run_yield. }
  assert (Hrun := gated_run self
            (bind (Store.store_path_data self (e_room_id event) path
                     (json_dumps self (e_content event)))
                  (fun d => yield d)) event w).
  match type of Hrun with _ = ?rhs => change (r = rhs) in Hrun end.
  split.
  - intros rows s1 Hauth Hgate. rewrite Hauth, Hgate in Hrun.
    cbv zeta in Hrun. cbn [fst snd] in Hrun.
    split; intros Hjoined; rewrite Hjoined in Hrun.
    + exact Hrun.
    + rewrite Hrun. apply (Hstore s1 [gate]).
  - intros Hauth. rewrite Hauth in Hrun. rewrite Hrun.
    rewrite <- (after_nil w) at 1. apply (Hstore _ []).
Qed.

(** [A], joined in [r1], replaces its topic; [B] is refused. *)
Lemma store_room_path_data_gate_witness :
  (truthy (e_auth_user_id ev_store_topic_A) = true
   /\ inJoin (member_state_of (PyList [member_row "r1" "A" "join"])) = true)
  /\ MessageHandler.store_room_path_data (mem_env no_fault) ev_store_topic_A
       "topic" w_r1
     = (Ok tt,
        after w_r1
          (mkMem (mem_rooms mem_r1) (mem_members mem_r1) []
                 (<["topic" := "'new'"]> (mem_paths mem_r1)))
          [CGetRoomMember "r1" (Some "A");
           CStorePathData "r1" "topic" "'new'"])
  /\ MessageHandler.store_room_path_data (mem_env no_fault) ev_store_topic_B
       "topic" w_r1
     = (Raise (AuthorizationError "Haven't joined room.'"),
        after w_r1 mem_r1 [CGetRoomMember "r1" (Some "B")]).
Proof.
  split; [split; reflexivity|].
  split.
  - exact (proj2 (proj1 (store_room_path_data_gate (mem_env no_fault)
                           ev_store_topic_A "topic" w_r1)
                    (PyList [member_row "r1" "A" "join"]) mem_r1
                    eq_refl eq_refl) eq_refl).
  - exact (proj1 (proj1 (store_room_path_data_gate (mem_env no_fault)
                           ev_store_topic_B "topic" w_r1)
                    PyNone mem_r1 eq_refl eq_refl) eq_refl).
Defined.

(** ** A failing gate *)

(** X3.  When there is a requester and the lookup of the requester's
    membership fails, every gated handler ([get_message],
    [send_message] under the requester's own id, [store_room_path_data]
    and [get_room_member]) raises the store's failure as it is and
    makes no further store call: nothing is read and nothing is
    stored. *)
Theorem gate_failure_propagates {S} (self : Env S) event path (w : World S)
    f s1 :
  truthy (e_auth_user_id event) = true ->
  st_get_room_member (store self) (e_room_id event) (e_auth_user_id event)
    (w_store w) = (Failed f, s1) ->
  let failed {A} : Result A * World S :=
    (Raise (StoreFault f),
     after w s1 [CGetRoomMember (e_room_id event) (e_auth_user_id event)]) in
  MessageHandler.get_message self event w = failed
  /\ (e_auth_user_id event = Some (e_user_id event) ->
      MessageHandler.send_message self event w = failed)
  /\ MessageHandler.store_room_path_data self event path w = failed
  /\ RoomMemberHandler.get_room_member self event w = failed.
Proof.
  intros Hauth Hgate failed. unfold failed.
  repeat split.
  - unfold MessageHandler.get_message. rewrite gated_run, Hauth, Hgate.
    reflexivity.
  - intros Hself. unfold MessageHandler.send_message. rewrite Hauth.
    rewrite Hself at 1. rewrite pystr_eqb_refl. cbn [negb].
    unfold bind at 1. unfold bind at 1.
    rewrite (get_joined_or_throw_down self _ _ _ _ _ Hgate). reflexivity.
  - unfold MessageHandler.store_room_path_data.
    rewrite gated_run, Hauth, Hgate. reflexivity.
  - unfold RoomMemberHandler.get_room_member.
    rewrite gated_run, Hauth, Hgate. reflexivity.
Qed.

(** With the membership lookups down, [A]'s message is not stored. *)
Lemma gate_failure_propagates_witness :
  (truthy (e_auth_user_id ev_message_A) = true
   /\ st_get_room_member (mem_store lookup_down) "r1" (Some "A") mem_r1
      = (Failed StoreException, mem_r1))
  /\ MessageHandler.send_message (mem_env lookup_down) ev_message_A w_r1
     = (Raise (StoreFault StoreException),
        after w_r1 mem_r1 [CGetRoomMember "r1" (Some "A")]).
Proof.
  split; [split; reflexivity|].
  exact (proj1 (proj2 (gate_failure_propagates (mem_env lookup_down)
                         ev_message_A "topic" w_r1 StoreException mem_r1
                         eq_refl eq_refl)) eq_refl).
Defined.

(** ** Leaving, and acting for another user *)

(** X4.  A leave is valid iff the caller is joined and is the target.
    With both membership lookups answered and the membership write
    accepted, a valid leave writes the membership [leave] for the
    target (then the notifier, if asked for); every other leave,
    leaving a room one has not joined among them, is refused with the
    403 error "Cannot leave." after the lookups alone. *)
Theorem leave_iff {S} (self : Env S) event b (w : World S)
    dr s1 caller s2 target s3 s4 :
  e_membership event = Some Membership.LEAVE ->
  st_get_room (store self) (e_room_id event) (w_store w) = (dr, s1) ->
  st_get_room_member (store self) (e_room_id event) (e_auth_user_id event) s1
    = (Fired caller, s2) ->
  st_get_room_member (store self) (e_room_id event) (Some (e_user_id event)) s2
    = (Fired target, s3) ->
  st_store_room_member (store self) (e_user_id event) (e_room_id event)
    (e_content event) (Some Membership.LEAVE) s3 = (Fired tt, s4) ->
  let r := RoomMemberHandler.change_membership self event b w in
  let valid := inJoin (member_state_of caller)
               && pystr_eqb (e_auth_user_id event) (Some (e_user_id event)) in
  let written := CStoreRoomMember (e_user_id event) (e_room_id event)
                   (e_content event) (Some Membership.LEAVE) in
  (valid = true ->
   r = (if b
        then RoomMemberHandler._inject_membership_msg self (e_room_id event)
               (e_auth_user_id event) (e_user_id event)
               (Some Membership.LEAVE)
        else ret tt) (after w s4 (lookups event ++ [written])))
  /\ (valid = false ->
      r = (Raise (AuthorizationError "Cannot leave."),
           after w s3 (lookups event)))
  /\ (fst r = Raise (AuthorizationError "Cannot leave.") <-> valid = false)
  /\ (b = false -> (fst r = Ok tt <-> valid = true))
  /\ (inJoin (member_state_of caller) = false ->
      fst r = Raise (AuthorizationError "Cannot leave.")).
Proof.
  intros Hm Hr Hc Ht Hw r valid written.
  assert (Hrun := change_membership_run self event b w _ _ _ _ _ _ Hr Hc Ht).
  fold r in Hrun. unfold membership_write in Hrun.
  rewrite Hm in Hrun. rewrite Hw in Hrun.
  unfold transition_error in Hrun.
  cbn [pystr_eqb Membership.LEAVE String.eqb Ascii.eqb Bool.eqb] in Hrun.
  fold valid in Hrun. fold written in Hrun.
  cbv zeta in Hrun. cbn [fst snd] in Hrun.
  assert (Hvalid : valid = true ->
            r = (if b
                 then RoomMemberHandler._inject_membership_msg self
                        (e_room_id event) (e_auth_user_id event)
                        (e_user_id event) (Some Membership.LEAVE)
                 else ret tt) (after w s4 (lookups event ++ [written]))).
  { intros Hv. rewrite Hv in Hrun. rewrite Hrun. destruct b; reflexivity. }
  assert (Hinvalid : valid = false ->
            r = (Raise (AuthorizationError "Cannot leave."),
                 after w s3 (lookups event))).
  { intros Hv. rewrite Hv in Hrun. exact Hrun. }
  repeat split.
  - exact Hvalid.
  - exact Hinvalid.
  - intros Hdenied. destruct valid eqn:Hv; [|reflexivity].
    rewrite (Hvalid eq_refl) in Hdenied. destruct b.
    + exfalso. revert Hdenied. eapply inject_not_denied. reflexivity.
    + discriminate.
  - intros Hv. rewrite (Hinvalid Hv). reflexivity.
  - intros Hok. destruct valid eqn:Hv; [reflexivity|].
    rewrite (Hinvalid eq_refl) in Hok. discriminate.
  - intros Hv. subst b. rewrite (Hvalid Hv). reflexivity.
  - intros Hno. rewrite Hinvalid; [reflexivity|].
    unfold valid. rewrite Hno. reflexivity.
Qed.

(** [A], joined in [r1], leaves it. *)
Lemma leave_iff_witness :
  (e_membership ev_leave_A = Some Membership.LEAVE
   /\ st_get_room_member (mem_store no_fault) "r1" (Some "A") mem_r1
      = (Fired (PyList [member_row "r1" "A" "join"]), mem_r1))
  /\ RoomMemberHandler.change_membership (mem_env no_fault) ev_leave_A false
       w_r1
     = (Ok tt,
        after w_r1
          (mkMem (mem_rooms mem_r1)
                 (<[("r1", Some "A") := member_row "r1" "A" "leave"]>
                    (mem_members mem_r1))
                 [] (mem_paths mem_r1))
          [CGetRoom "r1"; CGetRoomMember "r1" (Some "A");
           CGetRoomMember "r1" (Some "A");
           CStoreRoomMember "A" "r1" JNull (Some "leave")]).
Proof.
  split; [split; reflexivity|].
  exact (proj1 (leave_iff (mem_env no_fault) ev_leave_A false w_r1
                  (Fired (PyList [mkRoom "r1" false (Some "A")])) mem_r1
                  (PyList [member_row "r1" "A" "join"]) mem_r1
                  (PyList [member_row "r1" "A" "join"]) mem_r1
                  (snd (st_store_room_member (mem_store no_fault) "A" "r1"
                          JNull (Some "leave") mem_r1))
                  eq_refl eq_refl eq_refl eq_refl eq_refl) eq_refl).
Defined.

(** X5.  Nobody joins or leaves on behalf of another user: when the
    caller is not the target (a request without authenticated user
    included), a join is refused with "Cannot join." and a leave with
    "Cannot leave.", whatever memberships the store reports, and no
    membership is written. *)
Theorem no_join_or_leave_for_another {S} (self : Env S) event b (w : World S)
    dr s1 caller s2 target s3 :
  e_auth_user_id event <> Some (e_user_id event) ->
  st_get_room (store self) (e_room_id event) (w_store w) = (dr, s1) ->
  st_get_room_member (store self) (e_room_id event) (e_auth_user_id event) s1
    = (Fired caller, s2) ->
  st_get_room_member (store self) (e_room_id event) (Some (e_user_id event)) s2
    = (Fired target, s3) ->
  let r := RoomMemberHandler.change_membership self event b w in
  (e_membership event = Some Membership.JOIN ->
   r = (Raise (AuthorizationError "Cannot join."), after w s3 (lookups event)))
  /\ (e_membership event = Some Membership.LEAVE ->
      r = (Raise (AuthorizationError "Cannot leave."),
           after w s3 (lookups event))).
Proof.
  intros Hother Hr Hc Ht r.
  assert (Hrun := change_membership_run self event b w _ _ _ _ _ _ Hr Hc Ht).
  fold r in Hrun.
  assert (Hne : pystr_eqb (e_auth_user_id event) (Some (e_user_id event))
                = false).
  { destruct (pystr_eqb _ _) eqn:E; [|reflexivity].
    apply pystr_eqb_eq in E. contradiction. }
  unfold transition_error in Hrun. rewrite Hne in Hrun.
  split; intros Hm; rewrite Hm in Hrun;
    cbn [pystr_eqb Membership.JOIN Membership.LEAVE String.eqb Ascii.eqb
         Bool.eqb andb] in Hrun.
  - exact Hrun.
  - rewrite andb_false_r in Hrun. exact Hrun.
Qed.

(** [A] asks for the membership [join] of the invited [B]. *)
Lemma no_join_or_leave_for_another_witness :
  e_auth_user_id ev_A_joins_B <> Some (e_user_id ev_A_joins_B)
  /\ RoomMemberHandler.change_membership (mem_env no_fault) ev_A_joins_B true
       w_r1_invited
     = (Raise (AuthorizationError "Cannot join."),
        after w_r1_invited mem_r1_invited (lookups ev_A_joins_B)).
Proof.
  assert (Hother : e_auth_user_id ev_A_joins_B
                   <> Some (e_user_id ev_A_joins_B)) by discriminate.
  split; [exact Hother|].
  exact (proj1 (no_join_or_leave_for_another (mem_env no_fault) ev_A_joins_B
                  true w_r1_invited
                  (Fired (PyList [mkRoom "r1" false (Some "A")]))
                  mem_r1_invited
                  (PyList [member_row "r1" "A" "join"]) mem_r1_invited
                  (PyList [member_row "r1" "B" "invite"]) mem_r1_invited
                  Hother eq_refl eq_refl eq_refl) eq_refl).
Defined.

(** ** Failing writes *)

(** X6.  When the store fails to write the membership of a valid
    request, [change_membership] raises that failure as it is and the
    notifier is not run, with or without the broadcast flag: no message
    is sent for a membership that was not written. *)
Theorem membership_write_failure {S} (self : Env S) event b (w : World S)
    dr s1 caller s2 target s3 f s4 :
  st_get_room (store self) (e_room_id event) (w_store w) = (dr, s1) ->
  st_get_room_member (store self) (e_room_id event) (e_auth_user_id event) s1
    = (Fired caller, s2) ->
  st_get_room_member (store self) (e_room_id event) (Some (e_user_id event)) s2
    = (Fired target, s3) ->
  transition_error (e_membership event) (e_auth_user_id event)
    (e_user_id event) (member_state_of caller) (member_state_of target)
    = None ->
  st_store_room_member (store self) (e_user_id event) (e_room_id event)
    (e_content event) (e_membership event) s3 = (Failed f, s4) ->
  RoomMemberHandler.change_membership self event b w
  = (Raise (StoreFault f),
     after w s4 (lookups event ++ [membership_write event])).
Proof.
  intros Hr Hc Ht Hvalid Hw.
  rewrite (change_membership_run self event b w _ _ _ _ _ _ Hr Hc Ht).
  rewrite Hvalid, Hw. reflexivity.
Qed.

(** [A]'s invitation of [B] with the membership writes down. *)
Lemma membership_write_failure_witness :
  st_store_room_member (mem_store write_down) "B" "r1" JNull (Some "invite")
    mem_r1 = (Failed StoreException, mem_r1)
  /\ RoomMemberHandler.change_membership (mem_env write_down) ev_invite_B true
       w_r1
     = (Raise (StoreFault StoreException),
        after w_r1 mem_r1
          [CGetRoom "r1"; CGetRoomMember "r1" (Some "A");
           CGetRoomMember "r1" (Some "B");
           CStoreRoomMember "B" "r1" JNull (Some "invite")]).
Proof.
  split; [reflexivity|].
  exact (membership_write_failure (mem_env write_down) ev_invite_B true w_r1
           (Fired (PyList [mkRoom "r1" false (Some "A")])) mem_r1
           (PyList [member_row "r1" "A" "join"]) mem_r1
           PyNone mem_r1 StoreException mem_r1
           eq_refl eq_refl eq_refl eq_refl eq_refl).
Defined.

(** *** The in-memory store, step by step *)

Lemma mem_get_room fault room_id (s : Mem) :
  fault (CGetRoom room_id) = None ->
  st_get_room (mem_store fault) room_id s
  = (Fired (rows_of (mem_rooms s !! room_id)), s).
Proof. intros H. cbn [mem_store st_get_room]. unfold guarded. rewrite H. reflexivity. Qed.

Lemma mem_get_room_member fault room_id user_id (s : Mem) :
  fault (CGetRoomMember room_id user_id) = None ->
  st_get_room_member (mem_store fault) room_id user_id s
  = (Fired (rows_of (mem_members s !! (room_id, user_id))), s).
Proof.
  intros H. cbn [mem_store st_get_room_member]. unfold guarded.
  rewrite H. reflexivity.
Qed.

Lemma mem_store_room_member fault event (s : Mem) :
  fault (membership_write event) = None ->
  st_store_room_member (mem_store fault) (e_user_id event) (e_room_id event)
    (e_content event) (e_membership event) s
  = (Fired tt, mem_written s event).
Proof.
  intros H. cbn [mem_store st_store_room_member]. unfold guarded.
  unfold membership_write in H. rewrite H. reflexivity.
Qed.

Lemma mem_state_written_same (s : Mem) event :
  mem_state (mem_written s event) (e_room_id event) (Some (e_user_id event))
  = e_membership event.
Proof.
  unfold mem_state, mem_written. cbn [mem_members].
  rewrite lookup_insert_eq. reflexivity.
Qed.

Lemma mem_state_written_other (s : Mem) event room_id user_id :
  (room_id, user_id) <> (e_room_id event, Some (e_user_id event)) ->
  mem_state (mem_written s event) room_id user_id = mem_state s room_id user_id.
Proof.
  intros Hne. unfold mem_state, mem_written. cbn [mem_members].
  rewrite lookup_insert_ne by congruence. reflexivity.
Qed.

(** [change_membership] over the in-memory store when no lookup and no
    membership write fails. *)
Lemma mem_change_membership fault event b (w : World Mem) :
  (forall c, is_lookup c = true -> fault c = None) ->
  fault (membership_write event) = None ->
  RoomMemberHandler.change_membership (mem_env fault) event b w
  = match transition_error (e_membership event) (e_auth_user_id event)
            (e_user_id event)
            (mem_state (w_store w) (e_room_id event) (e_auth_user_id event))
            (mem_state (w_store w) (e_room_id event) (Some (e_user_id event)))
    with
    | Some e => (Raise e, after w (w_store w) (lookups event))
    | None =>
      let w4 := after w (mem_written (w_store w) event)
                  (lookups event ++ [membership_write event]) in
      if b
      then RoomMemberHandler._inject_membership_msg (mem_env fault)
             (e_room_id event) (e_auth_user_id event) (e_user_id event)
             (e_membership event) w4
      else (Ok tt, w4)
    end.
Proof.
  intros Hreads Hwrite.
  rewrite (change_membership_run (mem_env fault) event b w
             _ _ _ _ _ _
             (mem_get_room fault _ _ (Hreads (CGetRoom _) eq_refl))
             (mem_get_room_member fault _ _ _
                (Hreads (CGetRoomMember _ _) eq_refl))
             (mem_get_room_member fault _ _ _
                (Hreads (CGetRoomMember _ _) eq_refl))).
  fold (mem_state (w_store w) (e_room_id event) (e_auth_user_id event)).
  fold (mem_state (w_store w) (e_room_id event) (Some (e_user_id event))).
  destruct (transition_error _ _ _ _ _); [reflexivity|].
  cbn [mem_env store].
  rewrite (mem_store_room_member fault event _ Hwrite). reflexivity.
Qed.

(** X7.  A notifier that fails does not undo the membership change.
    Over the in-memory store, when a valid request with the broadcast
    flag is written but the notifier's message write fails,
    [change_membership] raises that failure, and the store holds the
    new membership of the target and no new message. *)
Theorem notifier_failure_keeps_membership fault event (w : World Mem) body f :
  (forall c, is_lookup c = true -> fault c = None) ->
  fault (membership_write event) = None ->
  transition_error (e_membership event) (e_auth_user_id event)
    (e_user_id event)
    (mem_state (w_store w) (e_room_id event) (e_auth_user_id event))
    (mem_state (w_store w) (e_room_id event) (Some (e_user_id event)))
    = None ->
  template (e_membership event) (e_auth_user_id event) (e_user_id event)
    = Some body ->
  fault (notifier_message (mem_env fault) (e_room_id event) (w_now w) body)
    = Some f ->
  let r := RoomMemberHandler.change_membership (mem_env fault) event true w in
  fst r = Raise (StoreFault f)
  /\ w_store (snd r) = mem_written (w_store w) event
  /\ mem_state (w_store (snd r)) (e_room_id event) (Some (e_user_id event))
     = e_membership event
  /\ mem_messages (w_store (snd r)) = mem_messages (w_store w).
Proof.
  intros Hreads Hwrite Hvalid Hbody Hdown r.
  assert (Hrun := mem_change_membership fault event true w Hreads Hwrite).
  fold r in Hrun. rewrite Hvalid in Hrun. cbv zeta in Hrun.
  rewrite (inject_known (mem_env fault) _ _ _ _ _ _ Hbody) in Hrun.
  cbv zeta in Hrun. rewrite w_store_after, w_now_after in Hrun.
  unfold notifier_message in Hdown.
  cbn [mem_env store mem_store st_store_message json_dumps] in Hrun, Hdown.
  unfold guarded in Hrun. rewrite Hdown in Hrun. cbn [fst snd] in Hrun.
  assert (Hstore : w_store (snd r) = mem_written (w_store w) event).
  { rewrite Hrun. reflexivity. }
  repeat split.
  - rewrite Hrun. reflexivity.
  - exact Hstore.
  - rewrite Hstore. apply mem_state_written_same.
  - rewrite Hstore. reflexivity.
Qed.

(** [A] invites [B] with the broadcast flag while message writes fail:
    [B] is invited all the same. *)
Lemma notifier_failure_keeps_membership_witness :
  (template (Some "invite") (Some "A") "B" = Some "A invited B to the room."
   /\ message_down (notifier_message (mem_env message_down) "r1" 1400000000
                      "A invited B to the room.") = Some StoreException)
  /\ fst (RoomMemberHandler.change_membership (mem_env message_down)
            ev_invite_B true w_r1) = Raise (StoreFault StoreException)
  /\ mem_state (w_store (snd (RoomMemberHandler.change_membership
                                (mem_env message_down) ev_invite_B true w_r1)))
               "r1" (Some "B") = Some "invite".
Proof.
  split; [split; reflexivity|].
  assert (Hreads : forall c, is_lookup c = true -> message_down c = None).
  { intros [] H; try reflexivity; discriminate. }
  destruct (notifier_failure_keeps_membership message_down ev_invite_B w_r1
              "A invited B to the room." StoreException
              Hreads eq_refl eq_refl eq_refl eq_refl)
    as (Hfail & _ & Hstate & _).
  split; [exact Hfail|exact Hstate].
Defined.

(** ** Sequences of membership changes *)

(** X8.  Leaving is final until a new invitation.  Over the in-memory
    store without failures: a joined user's leave of their own
    succeeds and records [leave]; the same user's join right after is
    refused with "Cannot join." and changes nothing. *)
Theorem leave_then_join_refused leave join (w : World Mem) :
  e_membership leave = Some Membership.LEAVE ->
  e_membership join = Some Membership.JOIN ->
  e_auth_user_id leave = Some (e_user_id leave) ->
  e_auth_user_id join = Some (e_user_id join) ->
  e_room_id join = e_room_id leave ->
  e_user_id join = e_user_id leave ->
  mem_state (w_store w) (e_room_id leave) (Some (e_user_id leave))
    = Some Membership.JOIN ->
  let env := mem_env no_fault in
  let r1 := RoomMemberHandler.change_membership env leave false w in
  let r2 := RoomMemberHandler.change_membership env join false (snd r1) in
  fst r1 = Ok tt
  /\ mem_state (w_store (snd r1)) (e_room_id leave) (Some (e_user_id leave))
     = Some Membership.LEAVE
  /\ fst r2 = Raise (AuthorizationError "Cannot join.")
  /\ w_store (snd r2) = w_store (snd r1).
Proof.
  intros Hleave Hjoin Hself1 Hself2 Hroom Huser Hstate env r1 r2.
  assert (Hrun1 := mem_change_membership no_fault leave false w
                     (fun _ _ => eq_refl) eq_refl).
  fold env r1 in Hrun1.
  rewrite Hself1, Hstate, Hleave in Hrun1.
  unfold transition_error in Hrun1.
  rewrite pystr_eqb_refl in Hrun1.
  cbn [pystr_eqb Membership.LEAVE Membership.JOIN String.eqb Ascii.eqb
       Bool.eqb inJoin andb] in Hrun1.
  cbv zeta in Hrun1.
  assert (Hstate1 : mem_state (w_store (snd r1)) (e_room_id leave)
                      (Some (e_user_id leave)) = Some Membership.LEAVE).
  { rewrite Hrun1. cbn [snd]. rewrite w_store_after, <- Hleave.
    apply mem_state_written_same. }
  assert (Hrun2 := mem_change_membership no_fault join false (snd r1)
                     (fun _ _ => eq_refl) eq_refl).
  fold env r2 in Hrun2.
  rewrite Hself2, Hroom, Huser, Hstate1, Hjoin in Hrun2.
  unfold transition_error in Hrun2.
  rewrite pystr_eqb_refl in Hrun2.
  cbn [pystr_eqb Membership.LEAVE Membership.JOIN String.eqb Ascii.eqb
       Bool.eqb inJoin andb orb] in Hrun2.
  rewrite andb_false_r in Hrun2.
  repeat split.
  - rewrite Hrun1. reflexivity.
  - exact Hstate1.
  - rewrite Hrun2. reflexivity.
  - rewrite Hrun2. reflexivity.
Qed.

(** [A] leaves [r1] and tries to come back. *)
Lemma leave_then_join_refused_witness :
  mem_state mem_r1 "r1" (Some "A") = Some "join"
  /\ fst (RoomMemberHandler.change_membership (mem_env no_fault)
            (membership_event "r1" "A" (Some "A") (Some "join")) false
            (snd (RoomMemberHandler.change_membership (mem_env no_fault)
                    ev_leave_A false w_r1)))
     = Raise (AuthorizationError "Cannot join.").
Proof.
  split; [reflexivity|].
  exact (proj1 (proj2 (proj2
           (leave_then_join_refused ev_leave_A
              (membership_event "r1" "A" (Some "A") (Some "join")) w_r1
              eq_refl eq_refl eq_refl eq_refl eq_refl eq_refl eq_refl)))).
Defined.

(** X9.  Invitation, acceptance, and no second invitation.  Over the
    in-memory store without failures: when the caller is joined and the
    target is not, the invite succeeds and records [invite]; the
    target's own join then succeeds and records [join]; and the same
    invite, repeated, is refused with "Cannot invite.". *)
Theorem invite_join_then_invite_refused invite join (w : World Mem) caller :
  e_membership invite = Some Membership.INVITE ->
  e_membership join = Some Membership.JOIN ->
  e_auth_user_id invite = Some caller ->
  e_auth_user_id join = Some (e_user_id join) ->
  e_room_id join = e_room_id invite ->
  e_user_id join = e_user_id invite ->
  mem_state (w_store w) (e_room_id invite) (Some caller)
    = Some Membership.JOIN ->
  mem_state (w_store w) (e_room_id invite) (Some (e_user_id invite))
    <> Some Membership.JOIN ->
  let env := mem_env no_fault in
  let r1 := RoomMemberHandler.change_membership env invite false w in
  let r2 := RoomMemberHandler.change_membership env join false (snd r1) in
  let r3 := RoomMemberHandler.change_membership env invite false (snd r2) in
  fst r1 = Ok tt
  /\ mem_state (w_store (snd r1)) (e_room_id invite) (Some (e_user_id invite))
     = Some Membership.INVITE
  /\ fst r2 = Ok tt
  /\ mem_state (w_store (snd r2)) (e_room_id invite) (Some (e_user_id invite))
     = Some Membership.JOIN
  /\ fst r3 = Raise (AuthorizationError "Cannot invite.")
  /\ w_store (snd r3) = w_store (snd r2).
Proof.
  intros Hinvite Hjoin Hcaller Hself Hroom Huser Hin Hout env r1 r2 r3.
  assert (Hne : (e_room_id invite, Some caller)
                <> (e_room_id invite, Some (e_user_id invite))).
  { intros Heq. injection Heq as Heq. subst caller. contradiction. }
  assert (Htarget : inJoin (mem_state (w_store w) (e_room_id invite)
                              (Some (e_user_id invite))) = false).
  { unfold inJoin. destruct (pystr_eqb _ _) eqn:E; [|reflexivity].
    apply pystr_eqb_eq in E. contradiction. }
  (* the invitation *)
  assert (Hrun1 := mem_change_membership no_fault invite false w
                     (fun _ _ => eq_refl) eq_refl).
  fold env r1 in Hrun1.
  unfold transition_error in Hrun1.
  rewrite Hinvite, Hcaller, Hin, Htarget in Hrun1.
  cbn [pystr_eqb Membership.INVITE Membership.JOIN String.eqb Ascii.eqb
       Bool.eqb inJoin andb negb] in Hrun1.
  cbv zeta in Hrun1.
  assert (Hstore1 : w_store (snd r1) = mem_written (w_store w) invite).
  { rewrite Hrun1. reflexivity. }
  assert (Htarget1 : mem_state (w_store (snd r1)) (e_room_id invite)
                       (Some (e_user_id invite)) = Some Membership.INVITE).
  { rewrite Hstore1, <- Hinvite. apply mem_state_written_same. }
  assert (Hcaller1 : mem_state (w_store (snd r1)) (e_room_id invite)
                       (Some caller) = Some Membership.JOIN).
  { rewrite Hstore1, mem_state_written_other by exact Hne. exact Hin. }
  (* the acceptance *)
  assert (Hrun2 := mem_change_membership no_fault join false (snd r1)
                     (fun _ _ => eq_refl) eq_refl).
  fold env r2 in Hrun2.
  unfold transition_error in Hrun2.
  rewrite Hjoin, Hself, pystr_eqb_refl, Hroom, Huser, Htarget1 in Hrun2.
  cbn [pystr_eqb Membership.INVITE Membership.JOIN String.eqb Ascii.eqb
       Bool.eqb inJoin andb orb] in Hrun2.
  rewrite String.eqb_refl in Hrun2. cbn [andb] in Hrun2.
  cbv zeta in Hrun2.
  assert (Hwritten2 : mem_written (w_store (snd r1)) join
                      = mkMem (mem_rooms (w_store (snd r1)))
                          (<[(e_room_id invite, Some (e_user_id invite)) :=
                               mkRoomMember (e_room_id invite)
                                 (Some (e_user_id invite))
                                 (Some Membership.JOIN) (e_content join)]>
                             (mem_members (w_store (snd r1))))
                          (mem_messages (w_store (snd r1)))
                          (mem_paths (w_store (snd r1)))).
  { unfold mem_written. rewrite Hroom, Huser, Hjoin. reflexivity. }
  assert (Hstore2 : w_store (snd r2) = mem_written (w_store (snd r1)) join).
  { rewrite Hrun2. reflexivity. }
  assert (Htarget2 : mem_state (w_store (snd r2)) (e_room_id invite)
                       (Some (e_user_id invite)) = Some Membership.JOIN).
  { rewrite Hstore2, Hwritten2. unfold mem_state. cbn [mem_members].
    rewrite lookup_insert_eq. reflexivity. }
  assert (Hcaller2 : mem_state (w_store (snd r2)) (e_room_id invite)
                       (Some caller) = Some Membership.JOIN).
  { rewrite Hstore2, Hwritten2. unfold mem_state. cbn [mem_members].
    rewrite lookup_insert_ne by congruence. exact Hcaller1. }
  (* the second invitation *)
  assert (Hrun3 := mem_change_membership no_fault invite false (snd r2)
                     (fun _ _ => eq_refl) eq_refl).
  fold env r3 in Hrun3.
  unfold transition_error in Hrun3.
  rewrite Hinvite, Hcaller, Hcaller2, Htarget2 in Hrun3.
  cbn [pystr_eqb Membership.INVITE Membership.JOIN String.eqb Ascii.eqb
       Bool.eqb inJoin andb negb] in Hrun3.
  repeat split.
  - rewrite Hrun1. reflexivity.
  - exact Htarget1.
  - rewrite Hrun2. reflexivity.
  - exact Htarget2.
  - rewrite Hrun3. reflexivity.
  - rewrite Hrun3. reflexivity.
Qed.

(** [A] invites [B], [B] joins, [A] invites [B] again. *)
Lemma invite_join_then_invite_refused_witness :
  (mem_state mem_r1 "r1" (Some "A") = Some "join"
   /\ mem_state mem_r1 "r1" (Some "B") <> Some "join")
  /\ mem_state
       (w_store (snd (RoomMemberHandler.change_membership (mem_env no_fault)
                        ev_join_B false
                        (snd (RoomMemberHandler.change_membership
                                (mem_env no_fault) ev_invite_B false w_r1)))))
       "r1" (Some "B") = Some "join".
Proof.
  assert (Hout : mem_state mem_r1 "r1" (Some "B") <> Some "join")
    by discriminate.
  split; [split; [reflexivity|exact Hout]|].
  exact (proj1 (proj2 (proj2 (proj2
           (invite_join_then_invite_refused ev_invite_B ev_join_B w_r1 "A"
              eq_refl eq_refl eq_refl eq_refl eq_refl eq_refl eq_refl
              Hout))))).
Defined.

(** ** Path data: the room check and the rule lists *)

(** X10.  [get_room_path_data] waits for the room lookup: when the
    store answers [None] or the empty list, the request is refused with
    the 403 error "Room does not exist." after that one call; no
    membership is looked up and no path data is read. *)
Theorem path_data_room_missing {S} (self : Env S) event path public_arg
    private_arg (w : World S) rooms s1 :
  st_get_room (store self) (e_room_id event) (w_store w) = (Fired rooms, s1) ->
  truthy rooms = false ->
  MessageHandler.get_room_path_data self event path public_arg private_arg w
  = (Raise (AuthorizationError "Room does not exist."),
     after w s1 [CGetRoom (e_room_id event)]).
Proof.
  intros Hr Hrooms. unfold MessageHandler.get_room_path_data.
  unfold bind at 1. unfold default_arg at 1.
  unfold bind at 1. unfold default_arg at 1.
  unfold Store.get_room. rewrite bind_call, Hr. cbn [fst snd].
  rewrite bind_yield.
  destruct rooms as [|[|room rest]]; try discriminate; reflexivity.
Qed.

(** [A] asks for the topic of a room that is not in the store. *)
Lemma path_data_room_missing_witness :
  st_get_room (mem_store no_fault) "nowhere" mem_r1 = (Fired PyNone, mem_r1)
  /\ MessageHandler.get_room_path_data (mem_env no_fault) ev_topic_nowhere
       "topic" None None w_r1
     = (Raise (AuthorizationError "Room does not exist."),
        after w_r1 mem_r1 [CGetRoom "nowhere"]).
Proof.
  split; [reflexivity|].
  exact (path_data_room_missing (mem_env no_fault) ev_topic_nowhere "topic"
           None None w_r1 PyNone mem_r1 eq_refl eq_refl).
Defined.



(** X12.  An empty rule list means "any state": in a public room
    with empty public rules, and in a private room with empty private
    rules when the event is not a topic event, the path data is read
    whatever the requester's membership is, also without any record
    and without a requester.  The rules of the other kind of room play
    no part. *)
Theorem empty_rules_admit_any_state {S} (self : Env S) event path public_arg
    private_arg (w : World S) room rooms s1 member s2 :
  st_get_room (store self) (e_room_id event) (w_store w)
    = (Fired (PyList (room :: rooms)), s1) ->
  st_get_room_member (store self) (e_room_id event) (requester event) s1
    = (Fired member, s2) ->
  (if is_public room
   then default (w_public_default w) public_arg = []
   else e_type event <> RoomTopicEvent_TYPE self
        /\ default (w_private_default w) private_arg = []) ->
  MessageHandler.get_room_path_data self event path public_arg private_arg w
  = (outcome_of (fst (st_get_path_data (store self) path s2)),
     after w (snd (st_get_path_data (store self) path s2))
       [CGetRoom (e_room_id event);
        CGetRoomMember (e_room_id event) (requester event);
        CGetPathData path]).
Proof.
  intros Hr Hm Hempty.
  rewrite (get_room_path_data_run self event path public_arg private_arg w
             _ _ _ _ _ Hr Hm).
  cbv zeta. unfold access_allowed.
  destruct (is_public room).
  - rewrite Hempty. reflexivity.
  - destruct Hempty as [Htopic Hempty].
    destruct (String.eqb_spec (e_type event) (RoomTopicEvent_TYPE self));
      [contradiction|].
    rewrite Hempty. reflexivity.
Qed.

(** A request without a user reads path data of the public room [r2]
    under the default rules. *)
Lemma empty_rules_admit_any_state_witness :
  (is_public (mkRoom "r2" true (Some "A")) = true
   /\ default (w_public_default w_r1) None = @nil string)
  /\ MessageHandler.get_room_path_data (mem_env no_fault) ev_path_anonymous
       "topic" None None w_r1
     = (Ok (PyList ["'hello'"]),
        after w_r1 mem_r1
          [CGetRoom "r2"; CGetRoomMember "r2" (Some ""); CGetPathData "topic"]).
Proof.
  split; [split; reflexivity|].
  exact (empty_rules_admit_any_state (mem_env no_fault) ev_path_anonymous
           "topic" None None w_r1 (mkRoom "r2" true (Some "A")) [] mem_r1
           PyNone mem_r1 eq_refl eq_refl eq_refl).
Defined.

(** ** The reading handlers only read *)

Lemma only_reads_mem fault (s : Mem) calls s' :
  only_reads (mem_store fault) s calls s' -> s' = s.
Proof.
  induction 1 as [s|s room_id calls s' _ IH|s room_id user_id calls s' _ IH
                  |s room_id msg_id user_id calls s' _ IH|s path calls s' _ IH];
    [reflexivity|..]; rewrite IH; cbn [mem_store st_get_room st_get_room_member
                                       st_get_message st_get_path_data];
    apply guarded_read.
Qed.

Lemma only_reads_app {S} (sigma : StoreImpl S) s calls s' calls' s'' :
  only_reads sigma s calls s' -> only_reads sigma s' calls' s'' ->
  only_reads sigma s (calls ++ calls') s''.
Proof.
  induction 1; intros Hrest; cbn [app]; [exact Hrest|..];
    constructor; auto.
Qed.

Section read_only_facts.
Context {S : Type} (self : Env S).

Lemma read_only_here {A} (w : World S) (x : Result A) :
  read_only_run self w (x, w).
Proof.
  exists (w_store w), []. split; [symmetry; apply after_nil|constructor].
Qed.

Lemma read_only_step {A} (w w1 : World S) (r : Result A * World S) :
  read_only_run self w (Ok tt, w1) -> read_only_run self w1 r -> read_only_run self w r.
Proof.
  intros (s1 & calls1 & Hw1 & Hreads1) (s2 & calls2 & Hw2 & Hreads2).
  cbn [snd] in Hw1. subst w1. rewrite w_store_after in Hreads2.
  exists s2, (calls1 ++ calls2)%list. split.
  - rewrite Hw2. apply after_after.
  - eapply only_reads_app; eassumption.
Qed.

Lemma read_only_member {A} (w : World S) room_id user_id (x : Result A) :
  read_only_run self w
    (x, after w (snd (st_get_room_member (store self) room_id user_id
                        (w_store w)))
          [CGetRoomMember room_id user_id]).
Proof. eexists _, _. split; [reflexivity|]. repeat constructor. Qed.

Lemma read_only_gated {A} (k : M S A) event (w : World S) :
  (forall w1, read_only_run self w1 (k w1)) ->
  read_only_run self w
    (bind (if truthy (e_auth_user_id event)
           then bind (_get_joined_or_throw self (e_auth_user_id event)
                        (e_room_id event)) (fun _ => ret tt)
           else ret tt) (fun _ => k) w).
Proof.
  intros Hk. rewrite gated_run.
  destruct (truthy (e_auth_user_id event)); [|apply Hk].
  cbv zeta.
  destruct (fst (st_get_room_member _ _ _ _)) as [rows|f];
    [destruct (inJoin (member_state_of rows))|]; try apply read_only_member.
  eapply read_only_step;
    [apply (read_only_member w (e_room_id event) (e_auth_user_id event)
              (Ok tt))|apply Hk].
Qed.
End read_only_facts.

Lemma read_only_mem {A} fault (w : World Mem) (r : Result A * World Mem) :
  read_only_run (mem_env fault) w r -> w_store (snd r) = w_store w.
Proof.
  intros (s & calls & Hw & Hreads). rewrite Hw, w_store_after.
  exact (only_reads_mem fault _ _ _ Hreads).
Qed.

Lemma get_message_read_only {S} (self : Env S) event (w : World S) :
  read_only_run self w (MessageHandler.get_message self event w).
Proof.
  unfold MessageHandler.get_message. apply read_only_gated. intros w1.
  unfold Store.get_message. rewrite bind_call, bind_yield.
  destruct (fst (st_get_message _ _ _ _ _)) as [results|f];
    [destruct (truthy results)|];
    (eexists _, _; split; [reflexivity|repeat constructor]).
Qed.

Lemma get_room_member_read_only {S} (self : Env S) event (w : World S) :
  read_only_run self w (RoomMemberHandler.get_room_member self event w).
Proof.
  unfold RoomMemberHandler.get_room_member. apply read_only_gated. intros w1.
  unfold Store.get_room_member. rewrite bind_call, bind_yield.
  destruct (fst (st_get_room_member _ _ _ _)) as [member|f];
    [destruct (first member)|];
    (eexists _, _; split; [reflexivity|repeat constructor]).
Qed.

Lemma get_room_path_data_read_only {S} (self : Env S) event path public_arg
    private_arg (w : World S) :
  read_only_run self w
    (MessageHandler.get_room_path_data self event path public_arg private_arg
       w).
Proof.
  assert (Hroom : forall d s1 (x : Result (pyres string)),
            st_get_room (store self) (e_room_id event) (w_store w) = (d, s1) ->
            read_only_run self w (x, after w s1 [CGetRoom (e_room_id event)])).
  { intros d s1 x Hr. eexists _, _. split; [reflexivity|].
    constructor. rewrite Hr. constructor. }
  destruct (st_get_room (store self) (e_room_id event) (w_store w))
    as [[rooms|f] s1] eqn:Hr.
  2:{ unfold MessageHandler.get_room_path_data.
      unfold bind at 1. unfold default_arg at 1.
      unfold bind at 1. unfold default_arg at 1.
      unfold Store.get_room. rewrite bind_call, Hr. cbn [fst snd].
      rewrite bind_yield. eapply Hroom. reflexivity. }
  destruct (truthy rooms) eqn:Hrooms.
  2:{ unfold MessageHandler.get_room_path_data.
      unfold bind at 1. unfold default_arg at 1.
      unfold bind at 1. unfold default_arg at 1.
      unfold Store.get_room. rewrite bind_call, Hr. cbn [fst snd].
      rewrite bind_yield.
      destruct rooms as [|[|room rest]]; try discriminate;
        (eapply Hroom; reflexivity). }
  destruct rooms as [|[|room rooms]]; try discriminate.
  assert (Hmember : forall d s2 (x : Result (pyres string)),
            st_get_room_member (store self) (e_room_id event)
              (requester event) s1 = (d, s2) ->
            read_only_run self w
              (x, after w s2 [CGetRoom (e_room_id event);
                              CGetRoomMember (e_room_id event)
                                (requester event)])).
  { intros d s2 x Hm. eexists _, _. split; [reflexivity|].
    constructor. rewrite Hr. constructor. cbn [snd]. rewrite Hm.
    constructor. }
  destruct (st_get_room_member (store self) (e_room_id event)
              (requester event) s1) as [[member|f] s2] eqn:Hm.
  2:{ unfold MessageHandler.get_room_path_data.
      unfold bind at 1. unfold default_arg at 1.
      unfold bind at 1. unfold default_arg at 1.
      unfold Store.get_room, Store.get_room_member.
      rewrite bind_call, Hr. cbn [fst snd]. rewrite bind_yield.
      cbn [first]. fold (requester event).
      rewrite bind_call, w_store_after, Hm, after_after. cbn [fst snd app].
      rewrite bind_yield. eapply Hmember. reflexivity. }
  rewrite (get_room_path_data_run self event path public_arg private_arg w
             _ _ _ _ _ Hr Hm).
  cbv zeta. destruct (access_allowed _ _ _ _).
  - eexists _, _. split; [reflexivity|]. cbn [app].
    constructor. rewrite Hr. constructor. cbn [snd]. rewrite Hm.
    constructor. cbn [snd]. constructor.
  - eapply Hmember. reflexivity.
Qed.

(** X13.  The reading handlers never write.  Whatever the store
    answers, and whether the request is served, refused or fails,
    [get_message], [get_room_member] and [get_room_path_data] call only
    the store's lookups; over the in-memory store, whichever calls
    fail, the store is afterwards exactly as it was. *)
Theorem reading_handlers_only_read :
  (forall S (self : Env S) event path public_arg private_arg (w : World S),
     read_only_run self w (MessageHandler.get_message self event w)
     /\ read_only_run self w (RoomMemberHandler.get_room_member self event w)
     /\ read_only_run self w
          (MessageHandler.get_room_path_data self event path public_arg
             private_arg w))
  /\ (forall fault event path public_arg private_arg (w : World Mem),
        w_store (snd (MessageHandler.get_message (mem_env fault) event w))
        = w_store w
        /\ w_store (snd (RoomMemberHandler.get_room_member (mem_env fault)
                           event w))
           = w_store w
        /\ w_store (snd (MessageHandler.get_room_path_data (mem_env fault)
                           event path public_arg private_arg w))
           = w_store w).
Proof.
  split.
  - intros S self event path public_arg private_arg w.
    split; [apply get_message_read_only|].
    split; [apply get_room_member_read_only|].
    apply get_room_path_data_read_only.
  - intros fault event path public_arg private_arg w.
    split; [apply (read_only_mem fault), get_message_read_only|].
    split; [apply (read_only_mem fault), get_room_member_read_only|].
    apply (read_only_mem fault), get_room_path_data_read_only.
Qed.

(** ** Creating a room: what the handler does not translate *)

(** X14.  [create_room] reads [config["visibility"]] before it calls
    the store.  Without a configuration (the default [None]) it raises
    a [TypeError], and with a configuration that has no visibility a
    [KeyError]; neither is turned into a [RoomError], and the store is
    not called: the world is as it was. *)
Theorem create_room_without_visibility {S} (self : Env S) user_id room_id
    (w : World S) :
  (exists msg,
     RoomCreationHandler.create_room self user_id room_id None w
     = (Raise (TypeError msg), w))
  /\ (forall cfg : gmap string json,
        cfg !! "visibility" = None ->
        RoomCreationHandler.create_room self user_id room_id (Some cfg) w
        = (Raise (KeyError "visibility"), w)).
Proof.
  split.
  - eexists. reflexivity.
  - intros cfg Hmissing.
    unfold RoomCreationHandler.create_room, try_except_StoreException.
    unfold subscript. rewrite Hmissing. reflexivity.
Qed.

(** A room is asked for with an empty configuration. *)
Lemma create_room_without_visibility_witness :
  cfg_empty !! "visibility" = None
  /\ RoomCreationHandler.create_room (mem_env no_fault) (Some "u1")
       (Some "!abc") (Some cfg_empty) (initial_world mem_empty 0)
     = (Raise (KeyError "visibility"), initial_world mem_empty 0).
Proof.
  split; [reflexivity|].
  exact (proj2 (create_room_without_visibility (mem_env no_fault) (Some "u1")
                  (Some "!abc") (initial_world mem_empty 0))
           cfg_empty eq_refl).
Defined.

(** X15.  [create_room] translates the store's [StoreException] only:
    when the store fails in any other way, that failure reaches the
    caller as it is, not as the 500 error "Unable to create room.". *)
Theorem create_room_other_failure {S} (self : Env S) user_id room_id cfg v
    (w : World S) descr s1 :
  cfg !! "visibility" = Some v ->
  st_store_room (store self) room_id user_id (json_eq_str v "public")
    (w_store w) = (Failed (OtherFault descr), s1) ->
  RoomCreationHandler.create_room self user_id room_id (Some cfg) w
  = (Raise (StoreFault (OtherFault descr)),
     after w s1 [CStoreRoom room_id user_id (json_eq_str v "public")]).
Proof.
  intros Hv Hfail. rewrite (create_room_run self _ _ _ _ _ Hv).
  cbv zeta. rewrite Hfail. reflexivity.
Qed.

(** The store's driver fails while a room is created. *)
Lemma create_room_other_failure_witness :
  st_store_room (mem_store driver_down) (Some "!abc") (Some "u1") false
    mem_empty = (Failed (OtherFault "OperationalError"), mem_empty)
  /\ RoomCreationHandler.create_room (mem_env driver_down) (Some "u1")
       (Some "!abc") (Some cfg_private) (initial_world mem_empty 0)
     = (Raise (StoreFault (OtherFault "OperationalError")),
        after (initial_world mem_empty 0) mem_empty
          [CStoreRoom (Some "!abc") (Some "u1") false]).
Proof.
  split; [reflexivity|].
  exact (create_room_other_failure (mem_env driver_down) (Some "u1")
           (Some "!abc") cfg_private (JStr "private")
           (initial_world mem_empty 0) "OperationalError" mem_empty
           eq_refl eq_refl).
Defined.

(** ** Inviting oneself *)

(** X16.  Nobody invites themself.  Over the in-memory store, where
    the two membership lookups of one user agree, an invite whose
    caller is its target is refused with "Cannot invite." whatever the
    user's state, and the store is left as it was. *)
Theorem no_self_invite fault event b (w : World Mem) :
  (forall c, is_lookup c = true -> fault c = None) ->
  fault (membership_write event) = None ->
  e_membership event = Some Membership.INVITE ->
  e_auth_user_id event = Some (e_user_id event) ->
  RoomMemberHandler.change_membership (mem_env fault) event b w
  = (Raise (AuthorizationError "Cannot invite."),
     after w (w_store w) (lookups event)).
Proof.
  intros Hreads Hwrite Hinvite Hself.
  rewrite (mem_change_membership fault event b w Hreads Hwrite).
  unfold transition_error. rewrite Hinvite, Hself.
  cbn [pystr_eqb Membership.INVITE String.eqb Ascii.eqb Bool.eqb].
  destruct (inJoin _); reflexivity.
Qed.

(** [A], joined in [r1], invites [A]. *)
Lemma no_self_invite_witness :
  e_auth_user_id (membership_event "r1" "A" (Some "A") (Some "invite"))
  = Some (e_user_id (membership_event "r1" "A" (Some "A") (Some "invite")))
  /\ RoomMemberHandler.change_membership (mem_env no_fault)
       (membership_event "r1" "A" (Some "A") (Some "invite")) true w_r1
     = (Raise (AuthorizationError "Cannot invite."),
        after w_r1 mem_r1
          [CGetRoom "r1"; CGetRoomMember "r1" (Some "A");
           CGetRoomMember "r1" (Some "A")]).
Proof.
  split; [reflexivity|].
  exact (no_self_invite no_fault
           (membership_event "r1" "A" (Some "A") (Some "invite")) true w_r1
           (fun _ _ => eq_refl) eq_refl eq_refl eq_refl).
Defined.
